(** * FIRA cost comparison: the upload workflow and the comparison record

    A shallow embedding of the three TypeScript units of the repository:
    - [services/firaApi]: the response types and [uploadAndProcessFira];
    - [components/FileUpload]: the upload form ([handleFile], [canAnalyze],
      [handleAnalyze]);
    - the [Index] page: [handleFileUpload], its comparison record
      [transformedData], [handleBackToHome] and the conditional rendering.

    JavaScript numbers are IEEE 754 binary64 values.  They are modelled by
    the Standard Library's executable specification [spec_float] at
    precision 53 and maximal exponent 1024, so that every arithmetic
    operation of the source rounds exactly as it does in a JavaScript
    engine. *)

From Stdlib Require Import ZArith NArith List String Bool Lia.
From Stdlib Require Import DecimalString DecimalN.
From Stdlib Require Import Floats.SpecFloat.
Import ListNotations.

Open Scope Z_scope.

(** ** JavaScript numbers *)

Module JS.

Definition prec : Z := 53.
Definition emax : Z := 1024.

(** A JavaScript number.  Values received from the network are doubles,
    which is what [is_double] says of a [spec_float]. *)
Definition number := spec_float.

Definition is_double (x : number) : Prop := valid_binary prec emax x = true.

Definition is_finite (x : number) : bool :=
  match x with
  | S754_zero _ | S754_finite _ _ _ => true
  | _ => false
  end.

(** The arithmetic operators [+], [-], [*], [/] on numbers. *)
Definition add : number -> number -> number := SFadd prec emax.
Definition sub : number -> number -> number := SFsub prec emax.
Definition mul : number -> number -> number := SFmul prec emax.
Definition div : number -> number -> number := SFdiv prec emax.

(** The comparison operators [<], [>], [==] on numbers. *)
Definition lt (x y : number) : bool := SFltb x y.
Definition gt (x y : number) : bool := SFltb y x.
Definition eq (x y : number) : bool := SFeqb x y.
Definition le (x y : number) : bool := SFleb x y.
Definition ge (x y : number) : bool := SFleb y x.

(** The double nearest to the fraction [p / q] (ties to even), with the
    sign [neg]: the rounding every decimal literal goes through. *)
Definition round_ratio (neg : bool) (p q : positive) : number :=
  let '(mz, ez, lz) := SFdiv_core_binary prec emax (Zpos p) 0 (Zpos q) 0 in
  binary_round_aux prec emax neg mz ez lz.

Definition pow10 (f : nat) : positive := Z.to_pos (10 ^ Z.of_nat f).

(** An integer literal such as [100]. *)
Definition of_Z (z : Z) : number := binary_normalize prec emax z 0 false.

(** A decimal literal [n / 10^f], such as [0.96] for [n = 96], [f = 2]. *)
Definition decimal (n : Z) (f : nat) : number :=
  match n with
  | Z0 => S754_zero false
  | Zpos p => round_ratio false p (pow10 f)
  | Zneg p => round_ratio true p (pow10 f)
  end.

(** The exact value of a finite double [m * 2^e] as a fraction
    [numerator / denominator] of integers. *)
Definition numerator (m : positive) (e : Z) : Z := Zpos m * 2 ^ Z.max e 0.
Definition denominator (e : Z) : Z := 2 ^ Z.max (- e) 0.

(** The strings [Number.prototype.toFixed] can return, by shape: the
    characters themselves play no part in what [Number] reads back. *)
Inductive NumericString : Type :=
| StrNaN                                     (* "NaN" *)
| StrInfinity (neg : bool)                   (* "Infinity", "-Infinity" *)
| StrFixed (neg : bool) (n : Z) (f : nat)    (* the digits of n, f of them after the point *)
| StrToString (x : number).                  (* ToString(x), for |x| >= 10^21 *)

(** [x.toFixed(f)] for [0 <= f <= 100].  A value that is not finite is
    printed by name; a magnitude of [10^21] or more is printed by
    ToString; otherwise the digits are those of the integer [n] for which
    [n / 10^f - |x|] is closest to zero, the larger one on a tie, and the
    sign is kept when [x < 0]. *)
Definition toFixed (x : number) (f : nat) : NumericString :=
  match x with
  | S754_nan => StrNaN
  | S754_infinity s => StrInfinity s
  | S754_zero _ => StrFixed false 0 f
  | S754_finite s m e =>
      let p := numerator m e in
      let q := denominator e in
      if 10 ^ 21 * q <=? p then StrToString x
      else StrFixed s ((2 * p * 10 ^ Z.of_nat f + q) / (2 * q)) f
  end.

(** [Number(s)] on such a string: the nearest double. *)
Definition Number (s : NumericString) : number :=
  match s with
  | StrNaN => S754_nan
  | StrInfinity neg => S754_infinity neg
  | StrFixed neg n f =>
      match n with
      | Zpos p => round_ratio neg p (pow10 f)
      | _ => S754_zero neg
      end
  | StrToString x => x
  end.

(** [|x| >= a / b] for the exact value of [x], with [0 < b]. *)
Definition at_least (x : number) (a b : Z) : bool :=
match x with
| S754_finite _ m e => a * denominator e <=? b * numerator m e
| S754_infinity _ => true
| S754_zero _ => a <=? 0
| S754_nan => false
end.

(** The numbers of sign [s] other than the zeros: an infinity or a finite
    non-zero value. *)
Definition signed (s : bool) (x : number) : Prop :=
x = S754_infinity s \/ exists m e, x = S754_finite s m e.

End JS.

Definition number : Type := JS.number.

(** ** services/firaApi: the response types *)

Module FiraDataDto.
Record t : Type := {
  id : number;
  amount : number;
  currency : string;
  inrAmount : number;
  fxRateSkydo : number;
  calculatedExchangeRate : number;
  transactionSkydoFee : number;
  skydoFiraFee : number;
  skydoWireFee : number;
  platformFiraFee : number;
  platformWireFee : number;
  platformTransactionFee : number;
  finalInrAmount : number;
  finalInrAmountSkydo : number;
  valueDate : string
}.
End FiraDataDto.

(** [message] and [errors] are declared mandatory by the interface, but the
    caller reads them defensively ([result.errors?.length],
    [result.message || ...]): [None] is a member that is absent or null. *)
Module FiraProcessingResult.
Record t : Type := {
  success : bool;
  message : option string;
  firaData : option FiraDataDto.t;
  processingTimeMs : option number;
  errors : option (list string)
}.
End FiraProcessingResult.

Inductive PaymentMethod : Type := BANK | PAYONEER | WISE | PAYPAL | OTHERS.

Module File.
Record t : Type := {
  name : string;
  type : string;           (* the declared content type *)
  size : N
}.
End File.

(** ** Thrown values and completions *)

(** What a [throw] carries: an [Error] object with its message, or a value
    that is not an [Error] (the [catch] blocks tell them apart). *)
Inductive exn : Type :=
| Error (message : string)
| NonError.

Inductive completion (A : Type) : Type :=
| Normal (a : A)
| Throw (e : exn).
Arguments Normal {A} a.
Arguments Throw {A} e.

Definition bind {A B : Type} (c : completion A) (k : A -> completion B) : completion B :=
  match c with
  | Normal a => k a
  | Throw e => Throw e
  end.

Declare Scope completion_scope.
Delimit Scope completion_scope with completion.
Notation "x <- c ;; k" := (bind c (fun x => k))
  (at level 61, c at next level, right associativity) : completion_scope.

(** ** JSON values, as [JSON.parse] returns them *)

#[warnings="-register-all"] Inductive json : Type :=
| JNull
| JBool (b : bool)
| JNumber (x : number)
| JString (s : string)
| JArray (items : list json)
| JObject (members : list (string * json)).

(** The members of a parsed object have distinct keys; [lookup] reads one. *)
Fixpoint lookup {A : Type} (k : string) (members : list (string * A)) : option A :=
  match members with
  | [] => None
  | (k', v) :: rest => if String.eqb k k' then Some v else lookup k rest
  end.

Definition isSome {A : Type} (o : option A) : bool :=
  match o with Some _ => true | None => false end.

(** [v.k] for one of the member names read by the source ([success],
    [firaData], the field names): [None] is [undefined]. *)
Definition get (v : json) (k : string) : option json :=
  match v with
  | JObject members => lookup k members
  | _ => None
  end.

(** ToBoolean. *)
Definition truthy (v : json) : bool :=
  match v with
  | JNull => false
  | JBool b => b
  | JNumber x => match x with S754_zero _ | S754_nan => false | _ => true end
  | JString s => negb (String.eqb s EmptyString)
  | JArray _ | JObject _ => true
  end.

(** ** services/firaApi: [uploadAndProcessFira] *)

(** What the network hands back: a rejection of [fetch] (or of reading the
    body), or a response.  [parsed] is [JSON.parse(responseText)], [None]
    when it throws. *)
Module Response.
Record t : Type := {
  ok : bool;
  status : N;
  responseText : string;
  parsed : option json
}.
End Response.

Inductive FetchOutcome : Type :=
| FetchRejected (error : exn)
| FetchResponse (response : Response.t).

Definition requiredFields : list string :=
  [ "amount"; "currency"; "inrAmount"; "fxRateSkydo";
    "calculatedExchangeRate"; "finalInrAmount"; "finalInrAmountSkydo" ]%string.

Definition string_of_N (n : N) : string :=
  NilEmpty.string_of_uint (N.to_uint n).

(** [array.join(sep)] on an array of strings. *)
Definition join (sep : string) (l : list string) : string := String.concat sep l.

Fixpoint filter_throwing {A : Type} (p : A -> completion bool) (l : list A)
  : completion (list A) :=
  match l with
  | [] => Normal []
  | a :: rest =>
      (keep <- p a ;;
       kept <- filter_throwing p rest ;;
       Normal (if keep then a :: kept else kept))%completion
  end.

Definition error_message (e : exn) (otherwise : string) : string :=
  match e with
  | Error message => message
  | NonError => otherwise
  end.

Section Engine.

(** The text of the TypeError an engine raises for [field in v] when [v]
    is not an object; it differs from engine to engine. *)
Variable inOperatorMessage : json -> string.

(** [field in v], for the field names of [requiredFields]. *)
Definition has_property (field : string) (v : json) : completion bool :=
  match v with
  | JObject members => Normal (isSome (lookup field members))
  | JArray _ => Normal false
  | _ => Throw (Error (inOperatorMessage v))
  end.

(** [!(field in data) || data[field] === undefined]: a parsed member is
    never [undefined], so a field is missing exactly when it is absent. *)
Definition is_missing (data : json) (field : string) : completion bool :=
  (present <- has_property field data ;;
   Normal (negb present || negb (isSome (get data field))))%completion.

Definition missingFields (data : json) : completion (list string) :=
  filter_throwing (is_missing data) requiredFields.

Definition is_boolean (v : option json) : bool :=
  match v with Some (JBool _) => true | _ => false end.

Definition is_true (v : option json) : bool :=
  match v with Some (JBool b) => b | _ => false end.

(** The validation of a parsed response. *)
Definition validate (result : json) : completion json :=
  if negb (truthy result) || negb (is_boolean (get result "success"))
  then Throw (Error "Invalid response format from server")
  else if is_true (get result "success") then
    match get result "firaData" with
    | Some data =>
        if negb (truthy data) then Throw (Error "Server returned success but no data")
        else
          (missing <- missingFields data ;;
           if Nat.ltb 0 (List.length missing)
           then Throw (Error ("Server response missing required fields: "
                              ++ join ", " missing))
           else Normal result)%completion
    | None => Throw (Error "Server returned success but no data")
    end
  else Normal result.

(** The body of the [try] block. *)
Definition request (net : FetchOutcome) : completion json :=
  match net with
  | FetchRejected error => Throw error
  | FetchResponse response =>
      if negb (Response.ok response)
      then Throw (Error ("HTTP error! status: " ++ string_of_N (Response.status response)
                         ++ ", message: " ++ Response.responseText response))
      else
        match Response.parsed response with
        | None => Throw (Error ("Invalid JSON response: " ++ Response.responseText response))
        | Some result => validate result
        end
  end.

(** [uploadAndProcessFira(file, paymentMethod)], as a function of what the
    network answers: whatever the [try] block throws is thrown again with
    a prefix. *)
Definition uploadAndProcessFira (net : FetchOutcome) : completion json :=
  match request net with
  | Normal result => Normal result
  | Throw error =>
      Throw (Error ("Failed to upload FIRA file: " ++ error_message error "Network error"))
  end.

End Engine.

(** ** The declared types, read off a parsed response *)

(** [uploadAndProcessFira] returns the parsed value under the declared type
    [FiraProcessingResult].  [asResult] is that reading; it is defined on the
    values that have the shape the interface declares. *)

Definition asNumber (v : option json) : option number :=
  match v with Some (JNumber x) => Some x | _ => None end.

Definition asString (v : option json) : option string :=
  match v with Some (JString s) => Some s | _ => None end.

Fixpoint asStrings (items : list json) : option (list string) :=
  match items with
  | [] => Some []
  | JString s :: rest =>
      match asStrings rest with Some l => Some (s :: l) | None => None end
  | _ :: _ => None
  end.

(** A member that may be absent or null. *)
Definition optional {A : Type} (read : option json -> option A) (v : option json)
  : option (option A) :=
  match v with
  | None | Some JNull => Some None
  | Some _ => match read v with Some a => Some (Some a) | None => None end
  end.

Definition asFiraData (v : option json) : option FiraDataDto.t :=
  match v with
  | Some (JObject m) =>
      match asNumber (lookup "id" m), asNumber (lookup "amount" m),
            asString (lookup "currency" m), asNumber (lookup "inrAmount" m),
            asNumber (lookup "fxRateSkydo" m), asNumber (lookup "calculatedExchangeRate" m),
            asNumber (lookup "transactionSkydoFee" m), asNumber (lookup "skydoFiraFee" m),
            asNumber (lookup "skydoWireFee" m), asNumber (lookup "platformFiraFee" m),
            asNumber (lookup "platformWireFee" m), asNumber (lookup "platformTransactionFee" m),
            asNumber (lookup "finalInrAmount" m), asNumber (lookup "finalInrAmountSkydo" m),
            asString (lookup "valueDate" m) with
      | Some id, Some amount, Some currency, Some inrAmount, Some fxRateSkydo,
        Some calculatedExchangeRate, Some transactionSkydoFee, Some skydoFiraFee,
        Some skydoWireFee, Some platformFiraFee, Some platformWireFee,
        Some platformTransactionFee, Some finalInrAmount, Some finalInrAmountSkydo,
        Some valueDate =>
          Some {| FiraDataDto.id := id;
                  FiraDataDto.amount := amount;
                  FiraDataDto.currency := currency;
                  FiraDataDto.inrAmount := inrAmount;
                  FiraDataDto.fxRateSkydo := fxRateSkydo;
                  FiraDataDto.calculatedExchangeRate := calculatedExchangeRate;
                  FiraDataDto.transactionSkydoFee := transactionSkydoFee;
                  FiraDataDto.skydoFiraFee := skydoFiraFee;
                  FiraDataDto.skydoWireFee := skydoWireFee;
                  FiraDataDto.platformFiraFee := platformFiraFee;
                  FiraDataDto.platformWireFee := platformWireFee;
                  FiraDataDto.platformTransactionFee := platformTransactionFee;
                  FiraDataDto.finalInrAmount := finalInrAmount;
                  FiraDataDto.finalInrAmountSkydo := finalInrAmountSkydo;
                  FiraDataDto.valueDate := valueDate |}
      | _, _, _, _, _, _, _, _, _, _, _, _, _, _, _ => None
      end
  | _ => None
  end.

Definition asErrors (v : option json) : option (list string) :=
  match v with Some (JArray items) => asStrings items | _ => None end.

Definition asResult (result : json) : option FiraProcessingResult.t :=
  match get result "success",
        optional asString (get result "message"),
        optional asFiraData (get result "firaData"),
        optional asNumber (get result "processingTimeMs"),
        optional asErrors (get result "errors") with
  | Some (JBool success), Some message, Some firaData, Some processingTimeMs, Some errors =>
      Some {| FiraProcessingResult.success := success;
              FiraProcessingResult.message := message;
              FiraProcessingResult.firaData := firaData;
              FiraProcessingResult.processingTimeMs := processingTimeMs;
              FiraProcessingResult.errors := errors |}
  | _, _, _, _, _ => None
  end.

(** ** Index: the comparison record built by [handleFileUpload] *)

Module Charge.
Record t : Type := {
  type : string;
  amount : number;
  isPercentage : option bool       (* absent on the three fee charges *)
}.
End Charge.

Module Provider.
Record t : Type := {
  name : string;
  paymentAmount : number;
  charges : list Charge.t;
  totalOnTransaction : number;
  effectiveCost : number
}.
End Provider.

Module Savings.
Record t : Type := {
  amount : number;
  percentage : number
}.
End Savings.

Module Comparison.
Record t : Type := {
  currentProvider : Provider.t;
  skydo : Provider.t;
  savings : Savings.t;
  transactionAmount : number;
  originalAmount : number;
  currency : string
}.
End Comparison.

Declare Scope js_scope.
Delimit Scope js_scope with js.
Notation "x + y" := (JS.add x y) : js_scope.
Notation "x - y" := (JS.sub x y) : js_scope.
Notation "x * y" := (JS.mul x y) : js_scope.
Notation "x / y" := (JS.div x y) : js_scope.

(** [Number(x.toFixed(f))]. *)
Definition fixed (x : number) (f : nat) : number := JS.Number (JS.toFixed x f).

(** The literal [100]. *)
Definition hundred : number := JS.of_Z 100.

Section Transform.

Import FiraDataDto.
Variable firaData : FiraDataDto.t.
Local Open Scope js_scope.

Definition currentProviderEffectiveCost : number :=
  fixed (((inrAmount firaData - finalInrAmount firaData) / inrAmount firaData) * hundred) 2.

Definition skydoOriginalInrAmount : number :=
  amount firaData * fxRateSkydo firaData.

Definition skydoEffectiveCost : number :=
  fixed (((skydoOriginalInrAmount - finalInrAmountSkydo firaData) / skydoOriginalInrAmount)
         * hundred) 2.

Definition transformedData : Comparison.t :=
  {| Comparison.currentProvider :=
       {| Provider.name := "Current Provider";
          Provider.paymentAmount := fixed (inrAmount firaData) 2;
          Provider.charges :=
            [ {| Charge.type := "FX Rate";
                 Charge.amount := fixed (calculatedExchangeRate firaData) 4;
                 Charge.isPercentage := Some false |};
              {| Charge.type := "Wire Fee (INR)";
                 Charge.amount := fixed (platformWireFee firaData) 2;
                 Charge.isPercentage := None |};
              {| Charge.type := "FIRA Fee (INR)";
                 Charge.amount := fixed (platformFiraFee firaData) 2;
                 Charge.isPercentage := None |};
              {| Charge.type := "Transaction Fee (INR)";
                 Charge.amount := fixed (platformTransactionFee firaData) 2;
                 Charge.isPercentage := None |} ];
          Provider.totalOnTransaction :=
            fixed (platformWireFee firaData + platformFiraFee firaData
                   + platformTransactionFee firaData) 2;
          Provider.effectiveCost := currentProviderEffectiveCost |};
     Comparison.skydo :=
       {| Provider.name := "Skydo";
          Provider.paymentAmount := fixed skydoOriginalInrAmount 2;
          Provider.charges :=
            [ {| Charge.type := "FX Rate";
                 Charge.amount := fixed (fxRateSkydo firaData) 4;
                 Charge.isPercentage := Some false |};
              {| Charge.type := "Wire Fee (INR)";
                 Charge.amount := fixed (skydoWireFee firaData) 2;
                 Charge.isPercentage := None |};
              {| Charge.type := "FIRA Fee (INR)";
                 Charge.amount := fixed (skydoFiraFee firaData) 2;
                 Charge.isPercentage := None |};
              {| Charge.type := "Transaction Fee (INR)";
                 Charge.amount := fixed (transactionSkydoFee firaData) 2;
                 Charge.isPercentage := None |} ];
          Provider.totalOnTransaction :=
            fixed (skydoWireFee firaData + skydoFiraFee firaData
                   + transactionSkydoFee firaData) 2;
          Provider.effectiveCost := skydoEffectiveCost |};
     Comparison.savings :=
       {| Savings.amount :=
            fixed (finalInrAmountSkydo firaData - finalInrAmount firaData) 2;
          Savings.percentage :=
            fixed (((finalInrAmountSkydo firaData - finalInrAmount firaData)
                    / finalInrAmount firaData) * hundred) 2 |};
     Comparison.transactionAmount := fixed (inrAmount firaData) 2;
     Comparison.originalAmount := fixed (amount firaData) 2;
     Comparison.currency := currency firaData |}.

End Transform.

(** The three fee charges of a breakdown, in display order: the entries of
    [charges] after the FX rate. *)
Definition feeCharges (p : Provider.t) : list number :=
  map Charge.amount (tl (Provider.charges p)).

(** ** Toasts *)

Module Toast.
Record t : Type := {
  title : string;
  description : string;
  variant : option string
}.
End Toast.

(** ** components/FileUpload *)

Module FileUpload.

Record State : Type := {
  uploadedFile : option File.t;
  previewUrl : option string;
  acceptedTerms : bool;
  paymentMethod : option PaymentMethod      (* [None] is the empty string *)
}.

(** The state of a freshly mounted form. *)
Definition initial : State :=
  {| uploadedFile := None; previewUrl := None;
     acceptedTerms := false; paymentMethod := None |}.

Definition validTypes : list string :=
  [ "application/pdf"; "image/png"; "image/jpeg"; "image/jpg" ]%string.

(** [array.includes(x)] on strings. *)
Definition includes (l : list string) (x : string) : bool :=
  existsb (String.eqb x) l.

Definition invalidFileType : Toast.t :=
  {| Toast.title := "Invalid file type";
     Toast.description := "Please upload a PDF or image file (PNG, JPG, JPEG)";
     Toast.variant := Some "destructive"%string |}.

(** [handleFile(file)]; [url] is what [URL.createObjectURL(file)] returns
    when it is called.  The result is the next state and the toasts shown. *)
Definition handleFile (url : string) (s : State) (file : File.t) : State * list Toast.t :=
  if negb (includes validTypes (File.type file)) then (s, [invalidFileType])
  else
    ({| uploadedFile := Some file;
        previewUrl := if String.prefix "image/" (File.type file) then Some url else None;
        acceptedTerms := acceptedTerms s;
        paymentMethod := paymentMethod s |}, []).

Definition setPaymentMethod (s : State) (value : PaymentMethod) : State :=
  {| uploadedFile := uploadedFile s; previewUrl := previewUrl s;
     acceptedTerms := acceptedTerms s; paymentMethod := Some value |}.

Definition setAcceptedTerms (s : State) (checked : bool) : State :=
  {| uploadedFile := uploadedFile s; previewUrl := previewUrl s;
     acceptedTerms := checked; paymentMethod := paymentMethod s |}.

(** [uploadedFile && acceptedTerms && paymentMethod], as the truth value
    the button and its label read. *)
Definition canAnalyze (s : State) : bool :=
  isSome (uploadedFile s) && acceptedTerms s && isSome (paymentMethod s).

(** [handleAnalyze()]: the call of [onFileUpload] it makes, if any. *)
Definition handleAnalyze (s : State) : option (File.t * PaymentMethod) :=
  match uploadedFile s, acceptedTerms s, paymentMethod s with
  | Some file, true, Some method => Some (file, method)
  | _, _, _ => None
  end.

End FileUpload.

(** ** The Index page *)

Module Index.

Record State : Type := {
  uploadedFile : option File.t;
  analysisData : option Comparison.t;
  isAnalyzing : bool
}.

Definition initial : State :=
  {| uploadedFile := None; analysisData := None; isAnalyzing := false |}.

(** [handleFileUpload] up to its [await]: the two state updates; the call
    of [uploadAndProcessFira] is then in flight. *)
Definition handleFileUpload_start (s : State) (file : File.t) : State :=
  {| uploadedFile := Some file; analysisData := analysisData s; isAnalyzing := true |}.

(** The message thrown for a result with [success: false]. *)
Definition errorMessage (result : FiraProcessingResult.t) : string :=
  match FiraProcessingResult.errors result with
  | Some ((_ :: _) as errors) => join ", " errors
  | _ =>
      match FiraProcessingResult.message result with
      | Some ((String _ _) as message) => message
      | _ => "Failed to process FIRA document"
      end
  end.

(** The body of the [try] block once the awaited call has settled. *)
Definition analyse (outcome : completion FiraProcessingResult.t) : completion Comparison.t :=
  (result <- outcome ;;
   if negb (FiraProcessingResult.success result)
   then Throw (Error (errorMessage result))
   else
     match FiraProcessingResult.firaData result with
     | None => Throw (Error "No data received from server")
     | Some firaData => Normal (transformedData firaData)
     end)%completion.

Definition analysisComplete : Toast.t :=
  {| Toast.title := "Analysis Complete";
     Toast.description := "Your FIRA document has been successfully analyzed.";
     Toast.variant := None |}.

Definition processingFailed (description : string) : Toast.t :=
  {| Toast.title := "Processing Failed";
     Toast.description := description;
     Toast.variant := Some "destructive"%string |}.

(** [handleFileUpload] from its [await] on: [try], [catch] and [finally].
    The result is the next state and the toasts shown. *)
Definition handleFileUpload_resume (s : State) (outcome : completion FiraProcessingResult.t)
  : State * list Toast.t :=
  match analyse outcome with
  | Normal data =>
      ({| uploadedFile := uploadedFile s; analysisData := Some data; isAnalyzing := false |},
       [analysisComplete])
  | Throw error =>
      ({| uploadedFile := uploadedFile s; analysisData := analysisData s;
          isAnalyzing := false |},
       [processingFailed
          (error_message error "Failed to process the FIRA document. Please try again.")])
  end.

Definition handleBackToHome (s : State) : State :=
  {| uploadedFile := None; analysisData := None; isAnalyzing := false |}.

(** What the page renders. *)
Definition showsFileUpload (s : State) : bool :=
  negb (isSome (analysisData s)) && negb (isAnalyzing s).
Definition showsLoadingStages (s : State) : bool := isAnalyzing s.
Definition showsComparisonResults (s : State) : bool := isSome (analysisData s).

(** The settled call is a failure when the record is not computed. *)
Definition failed (outcome : completion FiraProcessingResult.t) : bool :=
  match outcome with
  | Throw _ => true
  | Normal result =>
      negb (FiraProcessingResult.success result)
      || negb (isSome (FiraProcessingResult.firaData result))
  end.

End Index.

(** ** The page with its form, as a transition system *)

(** A call of [uploadAndProcessFira] that has not settled yet. *)
Definition Call : Type := (File.t * PaymentMethod)%type.

Module App.
Record t : Type := {
  page : Index.State;
  form : FileUpload.State;      (* of the mounted [FileUpload] *)
  pending : list Call;
  toasts : list Toast.t
}.
End App.

Inductive Event : Type :=
| SelectFile (file : File.t) (url : string)    (* a drop or the file input *)
| ChoosePaymentMethod (value : PaymentMethod)
| CheckTerms (checked : bool)
| ClickAnalyze
| Settle (i : nat) (net : FetchOutcome)        (* the i-th pending call settles *)
| ClickLogo
| ClickBackToHome.

Fixpoint remove_nth {A : Type} (i : nat) (l : list A) : list A :=
  match i, l with
  | _, [] => []
  | O, _ :: rest => rest
  | S j, a :: rest => a :: remove_nth j rest
  end.

(** A [FileUpload] that is not rendered is unmounted; the next one mounted
    starts from its initial state. *)
Definition rendered (page : Index.State) (form : FileUpload.State) : FileUpload.State :=
  if Index.showsFileUpload page then form else FileUpload.initial.

Definition start : App.t :=
  {| App.page := Index.initial; App.form := FileUpload.initial;
     App.pending := []; App.toasts := [] |}.

Section Steps.

Variable inOperatorMessage : json -> string.

(** What the awaited call hands to [handleFileUpload], under its declared
    type; [None] when the value does not have the declared shape. *)
Definition settled (net : FetchOutcome) : option (completion FiraProcessingResult.t) :=
  match uploadAndProcessFira inOperatorMessage net with
  | Throw error => Some (Throw error)
  | Normal result =>
      match asResult result with
      | Some typed => Some (Normal typed)
      | None => None
      end
  end.

(** One event; [None] when the control it needs is not rendered (or is
    disabled), or when no such call is pending. *)
Definition step (a : App.t) (e : Event) : option App.t :=
  let page := App.page a in
  let form := App.form a in
  match e with
  | SelectFile file url =>
      if Index.showsFileUpload page then
        let '(form', shown) := FileUpload.handleFile url form file in
        Some {| App.page := page; App.form := form';
                App.pending := App.pending a; App.toasts := App.toasts a ++ shown |}
      else None
  | ChoosePaymentMethod value =>
      if Index.showsFileUpload page && isSome (FileUpload.uploadedFile form) then
        Some {| App.page := page; App.form := FileUpload.setPaymentMethod form value;
                App.pending := App.pending a; App.toasts := App.toasts a |}
      else None
  | CheckTerms checked =>
      if Index.showsFileUpload page && isSome (FileUpload.uploadedFile form) then
        Some {| App.page := page; App.form := FileUpload.setAcceptedTerms form checked;
                App.pending := App.pending a; App.toasts := App.toasts a |}
      else None
  | ClickAnalyze =>
      if Index.showsFileUpload page && FileUpload.canAnalyze form then
        match FileUpload.handleAnalyze form with
        | Some (file, method) =>
            let page' := Index.handleFileUpload_start page file in
            Some {| App.page := page'; App.form := rendered page' form;
                    App.pending := App.pending a ++ [(file, method)];
                    App.toasts := App.toasts a |}
        | None => Some a
        end
      else None
  | Settle i net =>
      match nth_error (App.pending a) i, settled net with
      | Some _, Some outcome =>
          let '(page', shown) := Index.handleFileUpload_resume page outcome in
          Some {| App.page := page'; App.form := rendered page' form;
                  App.pending := remove_nth i (App.pending a);
                  App.toasts := App.toasts a ++ shown |}
      | _, _ => None
      end
  | ClickLogo =>
      let page' := Index.handleBackToHome page in
      Some {| App.page := page'; App.form := rendered page' form;
              App.pending := App.pending a; App.toasts := App.toasts a |}
  | ClickBackToHome =>
      if Index.showsComparisonResults page then
        let page' := Index.handleBackToHome page in
        Some {| App.page := page'; App.form := rendered page' form;
                App.pending := App.pending a; App.toasts := App.toasts a |}
      else None
  end.

(** Running a list of events from a state. *)
Fixpoint run (a : App.t) (events : list Event) : option App.t :=
  match events with
  | [] => Some a
  | e :: rest =>
      match step a e with
      | Some a' => run a' rest
      | None => None
      end
  end.

Inductive reachable : App.t -> Prop :=
| reachable_start : reachable start
| reachable_step a e a' : reachable a -> step a e = Some a' -> reachable a'.

(** The logo is not clicked while a submission is being analysed. *)
Definition undisturbed (a : App.t) (e : Event) : bool :=
  match e with
  | ClickLogo => negb (Index.isAnalyzing (App.page a))
  | _ => true
  end.

Inductive reachable_undisturbed : App.t -> Prop :=
| undisturbed_start : reachable_undisturbed start
| undisturbed_step a e a' :
    reachable_undisturbed a -> undisturbed a e = true -> step a e = Some a' ->
    reachable_undisturbed a'.

End Steps.

(** What holds as long as the logo is not clicked during an analysis:
    a call is pending exactly while [isAnalyzing] is true, and then no
    record is stored. *)
Definition pending_tracks_flag (a : App.t) : Prop :=
  List.length (App.pending a) = (if Index.isAnalyzing (App.page a) then 1 else 0)%nat
  /\ (Index.isAnalyzing (App.page a) = true -> Index.analysisData (App.page a) = None).

(** ** The formulas of the written specification, and worked inputs *)

(** The total the specification describes: the three displayed (already
    rounded) fee charges, summed, and the sum rounded to two decimals. *)
Definition roundedChargeTotal (p : Provider.t) : number :=
  match feeCharges p with
  | [wire; fira; transaction] => fixed (wire + fira + transaction)%js 2
  | _ => S754_nan
  end.

(** The percentage the specification describes: the already rounded savings
    amount over the current provider's final amount, times 100, rounded. *)
Definition percentageOfRoundedAmount (firaData : FiraDataDto.t) (savings : Savings.t) : number :=
  fixed ((Savings.amount savings / FiraDataDto.finalInrAmount firaData) * hundred)%js 2.

(** A payload given by the fields the formulas read. *)
Definition payload (amount inrAmount fxRateSkydo calculatedExchangeRate
                    platformWireFee platformFiraFee platformTransactionFee
                    skydoWireFee skydoFiraFee transactionSkydoFee
                    finalInrAmount finalInrAmountSkydo : number) : FiraDataDto.t :=
  {| FiraDataDto.id := JS.of_Z 1;
     FiraDataDto.amount := amount;
     FiraDataDto.currency := "USD";
     FiraDataDto.inrAmount := inrAmount;
     FiraDataDto.fxRateSkydo := fxRateSkydo;
     FiraDataDto.calculatedExchangeRate := calculatedExchangeRate;
     FiraDataDto.transactionSkydoFee := transactionSkydoFee;
     FiraDataDto.skydoFiraFee := skydoFiraFee;
     FiraDataDto.skydoWireFee := skydoWireFee;
     FiraDataDto.platformFiraFee := platformFiraFee;
     FiraDataDto.platformWireFee := platformWireFee;
     FiraDataDto.platformTransactionFee := platformTransactionFee;
     FiraDataDto.finalInrAmount := finalInrAmount;
     FiraDataDto.finalInrAmountSkydo := finalInrAmountSkydo;
     FiraDataDto.valueDate := "2024-01-15" |}.

(** The example scenario of the specification; the fields it leaves open
    (the Skydo fees) do not enter the figures it lists. *)
Definition scenario (skydoWireFee skydoFiraFee transactionSkydoFee : number) : FiraDataDto.t :=
  payload (JS.of_Z 1000) (JS.of_Z 83000) (JS.decimal 845 1) (JS.of_Z 83)
          (JS.of_Z 500) (JS.of_Z 200) (JS.of_Z 100)
          skydoWireFee skydoFiraFee transactionSkydoFee
          (JS.of_Z 82200) (JS.of_Z 83700).

(** Fees of 0.004 each: every one is displayed as 0.00. *)
Definition subCentFees : FiraDataDto.t :=
  payload (JS.of_Z 1000) (JS.of_Z 83000) (JS.decimal 845 1) (JS.of_Z 83)
          (JS.decimal 4 3) (JS.decimal 4 3) (JS.decimal 4 3)
          (JS.decimal 4 3) (JS.decimal 4 3) (JS.decimal 4 3)
          (JS.of_Z 82200) (JS.of_Z 83700).

(** Final amounts 1 and 1.004: they differ by less than half a cent. *)
Definition subCentSavings : FiraDataDto.t :=
  payload (JS.of_Z 1000) (JS.of_Z 83000) (JS.decimal 845 1) (JS.of_Z 83)
          (JS.of_Z 500) (JS.of_Z 200) (JS.of_Z 100)
          (JS.of_Z 500) (JS.of_Z 200) (JS.of_Z 100)
          (JS.of_Z 1) (JS.decimal 1004 3).

(** Final amounts 200.00 and 200.01. *)
Definition oneCentSavings : FiraDataDto.t :=
  payload (JS.of_Z 1000) (JS.of_Z 83000) (JS.decimal 845 1) (JS.of_Z 83)
          (JS.of_Z 500) (JS.of_Z 200) (JS.of_Z 100)
          (JS.of_Z 500) (JS.of_Z 200) (JS.of_Z 100)
          (JS.of_Z 200) (JS.decimal 20001 2).

(** The scenario with [inrAmount] zero, as a parsed response (the text of
    the body is abbreviated in [responseText]; [parsed] is its parse). *)
Definition zeroInrAmountData : json :=
  JObject [ ("id", JNumber (JS.of_Z 1));
            ("amount", JNumber (JS.of_Z 1000));
            ("currency", JString "USD");
            ("inrAmount", JNumber (JS.of_Z 0));
            ("fxRateSkydo", JNumber (JS.decimal 845 1));
            ("calculatedExchangeRate", JNumber (JS.of_Z 83));
            ("transactionSkydoFee", JNumber (JS.of_Z 100));
            ("skydoFiraFee", JNumber (JS.of_Z 200));
            ("skydoWireFee", JNumber (JS.of_Z 500));
            ("platformFiraFee", JNumber (JS.of_Z 200));
            ("platformWireFee", JNumber (JS.of_Z 500));
            ("platformTransactionFee", JNumber (JS.of_Z 100));
            ("finalInrAmount", JNumber (JS.of_Z 82200));
            ("finalInrAmountSkydo", JNumber (JS.of_Z 83700));
            ("valueDate", JString "2024-01-15") ]%string.

Definition zeroInrAmountResult : json :=
  JObject [ ("success", JBool true);
            ("message", JString "FIRA processed");
            ("firaData", zeroInrAmountData);
            ("processingTimeMs", JNumber (JS.of_Z 1200));
            ("errors", JArray []) ]%string.

Definition zeroInrAmountResponse : FetchOutcome :=
  FetchResponse {| Response.ok := true; Response.status := 200%N;
                   Response.responseText := "{...}";
                   Response.parsed := Some zeroInrAmountResult |}.

Definition zeroInrAmount : FiraDataDto.t :=
  payload (JS.of_Z 1000) (JS.of_Z 0) (JS.decimal 845 1) (JS.of_Z 83)
          (JS.of_Z 500) (JS.of_Z 200) (JS.of_Z 100)
          (JS.of_Z 500) (JS.of_Z 200) (JS.of_Z 100)
          (JS.of_Z 82200) (JS.of_Z 83700).


(** The same response as it arrives. *)
Definition unreadableResponse : FetchOutcome :=
  FetchResponse
    {| Response.ok := true; Response.status := 200%N;
       Response.responseText := "{...}";
       Response.parsed :=
         Some (JObject [ ("success", JBool false);
                         ("errors", JArray [JString "Unable to read document"]);
                         ("firaData", JNull) ]%string) |}.


(** One engine's wording of the TypeError of [in]. *)
Definition engineText (v : json) : string :=
  "right-hand side of 'in' should be an object".

Definition invoice : File.t :=
  {| File.name := "fira.pdf"; File.type := "application/pdf"; File.size := 52000%N |}.

Definition spreadsheet : File.t :=
  {| File.name := "fira.csv"; File.type := "text/csv"; File.size := 900%N |}.

Definition filled : list Event :=
  [ SelectFile invoice "blob:1"; ChoosePaymentMethod BANK; CheckTerms true; ClickAnalyze ].

(** A submission, the logo clicked while it is pending, and a second
    submission. *)
Definition resubmitted : list Event := filled ++ [ClickLogo] ++ filled.

(** ** More of the source *)




(** The Analyze button of [FileUpload]: [None] when it is not rendered,
    else whether it is disabled. *)
Definition analyzeDisabled (s : FileUpload.State) : option bool :=
  if isSome (FileUpload.uploadedFile s) then Some (negb (FileUpload.canAnalyze s)) else None.

(** The paragraph under the button: its text when it is rendered. *)
Definition analyzeHint (s : FileUpload.State) : option string :=
  if isSome (FileUpload.uploadedFile s)
     && (isSome (FileUpload.uploadedFile s)
         && (negb (FileUpload.acceptedTerms s) || negb (isSome (FileUpload.paymentMethod s))))
  then
    Some (if negb (isSome (FileUpload.paymentMethod s)) && negb (FileUpload.acceptedTerms s)
          then "Please select a payment method and accept the terms & conditions to continue"
          else if negb (isSome (FileUpload.paymentMethod s))
               then "Please select a payment method to continue"
               else "Please accept the terms & conditions to continue")%string
  else None.

(** A number that is a zero or has the sign [s]: not NaN, and not of the
    opposite sign. *)
Definition weakly_signed (s : bool) (x : number) : Prop :=
  (exists z, x = S754_zero z) \/ JS.signed s x.

Definition is_zero (x : number) : bool :=
  match x with S754_zero _ => true | _ => false end.

(** What the form keeps: its file has an accepted type, and it has a
    preview URL exactly when that file is an image. *)
Definition form_ok (form : FileUpload.State) : Prop :=
  (forall file, FileUpload.uploadedFile form = Some file ->
                In (File.type file) FileUpload.validTypes)
  /\ (forall url, FileUpload.previewUrl form = Some url ->
        exists file, FileUpload.uploadedFile form = Some file
                     /\ String.prefix "image/" (File.type file) = true)
  /\ (forall file, FileUpload.uploadedFile form = Some file ->
                   String.prefix "image/" (File.type file) = true ->
                   FileUpload.previewUrl form <> None).

(** What every reachable state satisfies. *)
Definition well_formed (a : App.t) : Prop :=
  (Index.isAnalyzing (App.page a) = true ->
     Index.analysisData (App.page a) = None /\ App.pending a <> [])
  /\ form_ok (App.form a)
  /\ (forall file, Index.uploadedFile (App.page a) = Some file ->
                   In (File.type file) FileUpload.validTypes)
  /\ (forall call, In call (App.pending a) ->
                   In (File.type (fst call)) FileUpload.validTypes)
  /\ (Index.showsFileUpload (App.page a) = false -> App.form a = FileUpload.initial).

(** The numbers of the payload that [transformedData] reads, and the
    numbers of the record it builds. *)
Definition transformedFields (d : FiraDataDto.t) : list number :=
  [ FiraDataDto.amount d; FiraDataDto.inrAmount d; FiraDataDto.fxRateSkydo d;
    FiraDataDto.calculatedExchangeRate d; FiraDataDto.transactionSkydoFee d;
    FiraDataDto.skydoFiraFee d; FiraDataDto.skydoWireFee d;
    FiraDataDto.platformFiraFee d; FiraDataDto.platformWireFee d;
    FiraDataDto.platformTransactionFee d; FiraDataDto.finalInrAmount d;
    FiraDataDto.finalInrAmountSkydo d ].

Definition providerNumbers (p : Provider.t) : list number :=
  Provider.paymentAmount p :: Provider.totalOnTransaction p :: Provider.effectiveCost p
  :: map Charge.amount (Provider.charges p).

Definition comparisonNumbers (c : Comparison.t) : list number :=
  providerNumbers (Comparison.currentProvider c)
  ++ providerNumbers (Comparison.skydo c)
  ++ [ Savings.amount (Comparison.savings c); Savings.percentage (Comparison.savings c);
       Comparison.transactionAmount c; Comparison.originalAmount c ].

(** * Properties *)

(** ** Numbers: the sign of a difference and of its rounding *)

Section Numbers.

Import JS.

(** Known values: the doubles of 0.1 and 0.96, and the printed roundings
    of 1.005, 0.015, 2.5, -2.5 and -0.001. *)
Example decimal_tenth : decimal 1 1 = S754_finite false 7205759403792794 (-56).
Proof. reflexivity. Qed.

Example decimal_96_cents : decimal 96 2 = S754_finite false 8646911284551352 (-53).
Proof. reflexivity. Qed.

Example toFixed_1_005 : toFixed (decimal 1005 3) 2 = StrFixed false 100 2.
Proof. reflexivity. Qed.

Example toFixed_0_015 : toFixed (decimal 15 3) 2 = StrFixed false 1 2.
Proof. reflexivity. Qed.

Example toFixed_half_up : toFixed (decimal 25 1) 0 = StrFixed false 3 0.
Proof. reflexivity. Qed.

Example toFixed_half_away : toFixed (decimal (-25) 1) 0 = StrFixed true 3 0.
Proof. reflexivity. Qed.

Example toFixed_negative_zero :
  Number (toFixed (decimal (-1) 3) 2) = S754_zero true
  /\ Number (toFixed (S754_zero true) 2) = S754_zero false.
Proof. split; reflexivity. Qed.

Example toFixed_large : toFixed (of_Z (10 ^ 21)) 2 = StrToString (of_Z (10 ^ 21)).
Proof. reflexivity. Qed.

Lemma digits2_pos_size (p : positive) : digits2_pos p = Pos.size p.
Proof. induction p as [p IH | p IH |]; simpl; congruence. Qed.

Lemma digits2_log2 (p : positive) : Zpos (digits2_pos p) = Z.log2 (Zpos p) + 1.
Proof.
  rewrite digits2_pos_size. destruct p; simpl; try reflexivity;
    rewrite Pos.add_1_r; reflexivity.
Qed.

Lemma digits2_bounds (p : positive) :
  2 ^ (Zpos (digits2_pos p) - 1) <= Zpos p < 2 ^ Zpos (digits2_pos p).
Proof.
  rewrite digits2_log2.
  pose proof (Z.log2_spec (Zpos p) (Pos2Z.is_pos p)) as H.
  replace (Z.log2 (Zpos p) + 1 - 1) with (Z.log2 (Zpos p)) by lia.
  replace (Z.log2 (Zpos p) + 1) with (Z.succ (Z.log2 (Zpos p))) by lia.
  exact H.
Qed.

Lemma shr_1_m (mrs : shr_record) :
  0 <= shr_m mrs -> shr_m (shr_1 mrs) = shr_m mrs / 2.
Proof.
  destruct mrs as [m r s]. simpl. intros Hm.
  rewrite <- Z.div2_div.
  destruct m as [| [p | p |] | p]; try reflexivity; lia.
Qed.

Lemma iter_pos_shr_1 (p : positive) :
  forall mrs, 0 <= shr_m mrs ->
              shr_m (iter_pos shr_1 p mrs) = shr_m mrs / 2 ^ Zpos p.
Proof.
  assert (Hpow : forall q, 0 < 2 ^ Zpos q) by (intros q; apply Z.pow_pos_nonneg; lia).
  induction p as [p IH | p IH |]; intros mrs Hm; simpl iter_pos.
  - assert (H1 : 0 <= shr_m (shr_1 mrs))
      by (rewrite shr_1_m by assumption; apply Z.div_pos; lia).
    assert (H2 : 0 <= shr_m (iter_pos shr_1 p (shr_1 mrs))).
    { rewrite IH by assumption. apply Z.div_pos; [assumption | apply Hpow]. }
    rewrite IH, IH, shr_1_m by assumption.
    pose proof (Hpow p).
    rewrite !Z.div_div by lia.
    f_equal. replace (Zpos p~1) with (1 + Zpos p + Zpos p) by lia.
    rewrite !Z.pow_add_r by lia. ring.
  - assert (H2 : 0 <= shr_m (iter_pos shr_1 p mrs)).
    { rewrite IH by assumption. apply Z.div_pos; [assumption | apply Hpow]. }
    rewrite IH, IH by assumption.
    pose proof (Hpow p).
    rewrite !Z.div_div by lia.
    f_equal. replace (Zpos p~0) with (Zpos p + Zpos p) by lia.
    rewrite !Z.pow_add_r by lia. ring.
  - rewrite shr_1_m by assumption. reflexivity.
Qed.

Lemma shr_m_record_of_loc (m : Z) (l : location) : shr_m (shr_record_of_loc m l) = m.
Proof. destruct l as [| []]; reflexivity. Qed.

(** A positive mantissa at an exponent not below [emin] keeps both
    properties through the shift to its canonical exponent. *)
Lemma shr_fexp_positive (m e : Z) (l : location) :
  0 < m -> emin prec emax <= e ->
  0 < shr_m (fst (shr_fexp prec emax m e l))
  /\ emin prec emax <= snd (shr_fexp prec emax m e l).
Proof.
  intros Hm He. unfold shr_fexp, shr.
  destruct m as [| p | p]; try lia. cbn [Zdigits2].
  pose proof (digits2_bounds p) as Hd.
  remember (Zpos (digits2_pos p)) as d eqn:Ed.
  assert (Hd1 : 1 <= d) by (subst d; lia).
  destruct (fexp prec emax (d + e) - e) as [| n | n] eqn:En; cbn [fst snd].
  - rewrite shr_m_record_of_loc. split; lia.
  - rewrite iter_pos_shr_1 by (rewrite shr_m_record_of_loc; lia).
    rewrite shr_m_record_of_loc.
    unfold fexp, emin, prec, emax in *.
    assert (Hn : Zpos n <= d - 1) by lia.
    split; [| lia].
    apply Z.div_str_pos. split; [apply Z.pow_pos_nonneg; lia |].
    apply Z.le_trans with (2 ^ (d - 1)); [apply Z.pow_le_mono_r; lia | lia].
  - rewrite shr_m_record_of_loc. split; lia.
Qed.

Lemma shr_fexp_nonneg (m e : Z) (l : location) :
  0 <= m -> 0 <= shr_m (fst (shr_fexp prec emax m e l)).
Proof.
  intros Hm. unfold shr_fexp, shr.
  destruct (fexp prec emax (Zdigits2 m + e) - e) as [| n | n]; cbn [fst];
    rewrite ?iter_pos_shr_1; rewrite ?shr_m_record_of_loc; try assumption.
  apply Z.div_pos; [assumption | apply Z.pow_pos_nonneg; lia].
Qed.

Lemma round_nearest_even_ge (m : Z) (l : location) : m <= round_nearest_even m l.
Proof. destruct l as [| []]; simpl; try destruct (Z.even m); lia. Qed.

Lemma binary_round_aux_sign (s : bool) (m e : Z) (l : location) :
  0 <= m ->
  binary_round_aux prec emax s m e l = S754_zero s
  \/ signed s (binary_round_aux prec emax s m e l).
Proof.
  intros Hm. unfold binary_round_aux.
  pose proof (shr_fexp_nonneg m e l Hm) as H1.
  destruct (shr_fexp prec emax m e l) as [mrs1 e1]. cbn [fst] in H1.
  pose proof (round_nearest_even_ge (shr_m mrs1) (loc_of_shr_record mrs1)) as Hr.
  pose proof (shr_fexp_nonneg (round_nearest_even (shr_m mrs1) (loc_of_shr_record mrs1))
                e1 loc_Exact ltac:(lia)) as H2.
  destruct (shr_fexp prec emax _ e1 loc_Exact) as [mrs2 e2]. cbn [fst] in H2.
  destruct (shr_m mrs2) as [| p | p].
  - now left.
  - right. destruct (e2 <=? emax - prec); [right; eauto | now left].
  - lia.
Qed.

Lemma binary_round_aux_nonzero (s : bool) (m e : Z) (l : location) :
  0 < m -> emin prec emax <= e ->
  signed s (binary_round_aux prec emax s m e l).
Proof.
  intros Hm He. unfold binary_round_aux.
  pose proof (shr_fexp_positive m e l Hm He) as [H1 He1].
  destruct (shr_fexp prec emax m e l) as [mrs1 e1]. cbn [fst snd] in H1, He1.
  pose proof (round_nearest_even_ge (shr_m mrs1) (loc_of_shr_record mrs1)) as Hr.
  pose proof (shr_fexp_positive (round_nearest_even (shr_m mrs1) (loc_of_shr_record mrs1))
                e1 loc_Exact ltac:(lia) He1) as [H2 _].
  destruct (shr_fexp prec emax _ e1 loc_Exact) as [mrs2 e2]. cbn [fst] in H2.
  destruct (shr_m mrs2) as [| p | p]; try lia.
  destruct (e2 <=? emax - prec); [right; eauto | now left].
Qed.

Lemma iter_xO (d m : positive) : Zpos (Pos.iter xO m d) = Zpos m * 2 ^ Zpos d.
Proof.
  induction d as [| d IH] using Pos.peano_ind.
  - simpl. lia.
  - rewrite Pos.iter_succ, Pos2Z.inj_xO, IH, Pos2Z.inj_succ, Z.pow_succ_r by lia. ring.
Qed.

Lemma shl_align_fst (m : positive) (e e' : Z) :
  e' <= e -> Zpos (fst (shl_align m e e')) = Zpos m * 2 ^ (e - e').
Proof.
  intros Hle. unfold shl_align.
  destruct (e' - e) as [| d | d] eqn:Ed; cbn [fst].
  - replace (e - e') with 0 by lia. simpl. lia.
  - lia.
  - rewrite iter_xO. f_equal. f_equal. lia.
Qed.

Lemma shl_align_snd (m : positive) (e e' : Z) :
  snd (shl_align m e e') = Z.min e e'.
Proof.
  unfold shl_align. destruct (e' - e) as [| d | d] eqn:Ed; cbn [snd]; lia.
Qed.

Lemma binary_round_nonzero (s : bool) (m : positive) (e : Z) :
  emin prec emax <= e -> signed s (binary_round prec emax s m e).
Proof.
  intros He. unfold binary_round.
  pose proof (shl_align_snd m e (fexp prec emax (Zpos (digits2_pos m) + e))) as Hs.
  destruct (shl_align m e _) as [mz ez]. cbn [snd] in Hs.
  apply binary_round_aux_nonzero; [lia |].
  unfold fexp in Hs. lia.
Qed.

(** What a canonical mantissa is made of. *)
Lemma canonical_bounds (m : positive) (e : Z) :
  canonical_mantissa prec emax m e = true ->
  emin prec emax <= e
  /\ Zpos m < 2 ^ prec
  /\ (emin prec emax < e -> 2 ^ (prec - 1) <= Zpos m).
Proof.
  unfold canonical_mantissa. intros H. apply Z.eqb_eq in H.
  pose proof (digits2_bounds m) as Hd.
  remember (Zpos (digits2_pos m)) as d eqn:Ed.
  unfold fexp, emin, prec, emax in *.
  assert (Hd53 : d <= 53) by lia.
  split; [lia |]. split.
  - apply Z.lt_le_trans with (2 ^ d); [lia | apply Z.pow_le_mono_r; lia].
  - intros Hlt. assert (d = 53) by lia. subst d.
    replace (53 - 1) with (Zpos (digits2_pos m) - 1) by lia. lia.
Qed.

Lemma bounded_canonical (m : positive) (e : Z) :
  bounded prec emax m e = true -> canonical_mantissa prec emax m e = true.
Proof. unfold bounded. intros H. apply andb_true_iff in H. tauto. Qed.

(** Two canonical mantissas compare as their values, once brought to the
    smaller of the two exponents. *)
Lemma canonical_compare (m1 m2 : positive) (e1 e2 : Z) :
  canonical_mantissa prec emax m1 e1 = true ->
  canonical_mantissa prec emax m2 e2 = true ->
  Z.compare (Zpos m1 * 2 ^ (e1 - Z.min e1 e2)) (Zpos m2 * 2 ^ (e2 - Z.min e1 e2))
  = match Z.compare e1 e2 with
    | Lt => Lt
    | Gt => Gt
    | Eq => Pos.compare_cont Eq m1 m2
    end.
Proof.
  intros H1 H2.
  destruct (canonical_bounds m1 e1 H1) as [He1 [Hu1 Hl1]].
  destruct (canonical_bounds m2 e2 H2) as [He2 [Hu2 Hl2]].
  destruct (Z.compare_spec e1 e2) as [Heq | Hlt | Hgt].
  - subst e2. rewrite Z.min_id, Z.sub_diag. simpl. rewrite !Pos.mul_1_r. reflexivity.
  - rewrite Z.min_l, Z.sub_diag by lia. apply Z.compare_lt_iff.
    specialize (Hl2 ltac:(lia)).
    assert (Hp : 2 ^ 1 <= 2 ^ (e2 - e1)) by (apply Z.pow_le_mono_r; lia).
    change (2 ^ 0) with 1. change (2 ^ 1) with 2 in Hp.
    unfold prec in *. change (2 ^ 53) with (2 * 2 ^ (53 - 1)) in Hu1. nia.
  - rewrite Z.min_r, Z.sub_diag by lia. apply Z.compare_gt_iff.
    specialize (Hl1 ltac:(lia)).
    assert (Hp : 2 ^ 1 <= 2 ^ (e1 - e2)) by (apply Z.pow_le_mono_r; lia).
    change (2 ^ 0) with 1. change (2 ^ 1) with 2 in Hp.
    unfold prec in *. change (2 ^ 53) with (2 * 2 ^ (53 - 1)) in Hu2. nia.
Qed.

Lemma binary_normalize_sign (d e : Z) (szero : bool) :
  emin prec emax <= e ->
  match Z.compare d 0 with
  | Gt => signed false (binary_normalize prec emax d e szero)
  | Lt => signed true (binary_normalize prec emax d e szero)
  | Eq => binary_normalize prec emax d e szero = S754_zero szero
  end.
Proof.
  intros He. destruct d as [| p | p]; simpl.
  - reflexivity.
  - apply binary_round_nonzero. exact He.
  - apply binary_round_nonzero. exact He.
Qed.

(** The sign of a difference of two doubles is that of the comparison:
    no difference of distinct doubles rounds to zero. *)
Lemma sub_sign (x y : number) :
  is_double x -> is_double y ->
  match SFcompare x y with
  | Some Gt => signed false (sub x y)
  | Some Lt => signed true (sub x y)
  | Some Eq => is_finite x = true -> exists s, sub x y = S754_zero s
  | None => True
  end.
Proof.
  unfold is_double, sub.
  destruct x as [sx | sx | | sx mx ex], y as [sy | sy | | sy my ey];
    cbn [valid_binary SFcompare SFsub is_finite]; intros Hx Hy; try exact I.
  - intros _. destruct sx, sy; eauto.
  - destruct sy; cbn [negb]; left; reflexivity.
  - destruct sy; cbn [negb]; right; eauto.
  - destruct sx; left; reflexivity.
  - destruct sx, sy; try (left; reflexivity); discriminate.
  - destruct sx; left; reflexivity.
  - destruct sx; right; eauto.
  - destruct sx, sy; cbn [negb]; left; reflexivity.
  - apply bounded_canonical in Hx, Hy.
    destruct (canonical_bounds mx ex Hx) as [Hex _].
    destruct (canonical_bounds my ey Hy) as [Hey _].
    pose proof (canonical_compare mx my ex ey Hx Hy) as Hc.
    rewrite !shl_align_fst by lia.
    set (a := Zpos mx * 2 ^ (ex - Z.min ex ey)) in *.
    set (b := Zpos my * 2 ^ (ey - Z.min ex ey)) in *.
    assert (Ha : 0 < a) by (apply Z.mul_pos_pos; [lia | apply Z.pow_pos_nonneg; lia]).
    assert (Hb : 0 < b) by (apply Z.mul_pos_pos; [lia | apply Z.pow_pos_nonneg; lia]).
    assert (Hez : emin prec emax <= Z.min ex ey) by lia.
    destruct sx, sy; cbn [cond_Zopp].
    + pose proof (binary_normalize_sign (- a - - b) (Z.min ex ey) false Hez) as Hn.
      destruct (Z.compare_spec a b) as [Hab | Hab | Hab];
        destruct (ex ?= ey); try discriminate Hc; try rewrite <- Hc; cbn [CompOpp];
        try (intros _; replace (- a - - b) with 0 in * by lia; simpl in Hn; eauto);
        destruct (Z.compare_spec (- a - - b) 0); try lia; exact Hn.
    + pose proof (binary_normalize_sign (- a - b) (Z.min ex ey) false Hez) as Hn.
      destruct (Z.compare_spec (- a - b) 0); try lia. exact Hn.
    + pose proof (binary_normalize_sign (a - - b) (Z.min ex ey) false Hez) as Hn.
      destruct (Z.compare_spec (a - - b) 0); try lia. exact Hn.
    + pose proof (binary_normalize_sign (a - b) (Z.min ex ey) false Hez) as Hn.
      destruct (Z.compare_spec a b) as [Hab | Hab | Hab];
        destruct (ex ?= ey); try discriminate Hc; try rewrite <- Hc;
        try (intros _; replace (a - b) with 0 in * by lia; simpl in Hn; eauto);
        destruct (Z.compare_spec (a - b) 0); try lia; exact Hn.
Qed.

(** A positive number of cents is read back as a non-zero double. *)
Lemma round_ratio_cents (s : bool) (n : positive) : signed s (round_ratio s n 100).
Proof.
  unfold round_ratio, SFdiv_core_binary.
  change (Zdigits2 (Zpos 100)) with 7. cbn [Zdigits2].
  pose proof (digits2_bounds n) as Hd.
  remember (Zpos (digits2_pos n)) as d eqn:Ed.
  assert (Hd1 : 1 <= d) by (subst d; lia).
  set (e' := Z.min (fexp prec emax (d + 0 - (7 + 0))) (0 - 0)).
  assert (He' : e' = Z.min (d - 60) 0 /\ emin prec emax <= e').
  { unfold e', fexp, emin, prec, emax. lia. }
  destruct He' as [He' Hemin].
  assert (Hm : 100 <= match 0 - 0 - e' with
                      | 0 => Zpos n
                      | Zpos _ => Z.shiftl (Zpos n) (0 - 0 - e')
                      | Zneg _ => 0
                      end).
  { destruct (0 - 0 - e') as [| k | k] eqn:Ek.
    - assert (60 <= d) by lia.
      apply Z.le_trans with (2 ^ (d - 1)); [| lia].
      apply Z.le_trans with (2 ^ 59); [lia | apply Z.pow_le_mono_r; lia].
    - rewrite Z.shiftl_mul_pow2 by lia.
      assert (Hk : Zpos k = 60 - d) by lia.
      apply Z.le_trans with (2 ^ (d - 1) * 2 ^ Zpos k).
      + rewrite <- Z.pow_add_r by lia. replace (d - 1 + Zpos k) with 59 by lia. lia.
      + apply Z.mul_le_mono_nonneg_r; [apply Z.pow_nonneg; lia | lia].
    - lia. }
  destruct (Z.div_eucl _ 100) as [q r] eqn:Eq.
  assert (Hq : 0 < q).
  { match type of Eq with Z.div_eucl ?a _ = _ =>
      assert (Hdiv : q = a / 100) by (unfold Z.div; rewrite Eq; reflexivity);
      assert (1 <= a / 100) by (apply Z.div_le_lower_bound; lia)
    end. lia. }
  apply binary_round_aux_nonzero; assumption.
Qed.

(** Reading a decimal back never gives NaN. *)
Lemma round_ratio_not_nan (s : bool) (p q : positive) : round_ratio s p q <> S754_nan.
Proof.
  unfold round_ratio, SFdiv_core_binary.
  set (e' := Z.min _ _). set (m' := match 0 - 0 - e' with 0 => _ | Zpos _ => _ | Zneg _ => _ end).
  assert (Hm : 0 <= m').
  { unfold m'. destruct (0 - 0 - e'); try lia. apply Z.shiftl_nonneg. lia. }
  destruct (Z.div_eucl m' (Zpos q)) as [n r] eqn:En.
  assert (Hn : 0 <= n).
  { replace n with (m' / Zpos q) by (unfold Z.div; rewrite En; reflexivity).
    apply Z.div_pos; lia. }
  destruct (binary_round_aux_sign s n e' (new_location (Zpos q) r) Hn)
    as [H | [H | [m [e H]]]]; rewrite H; discriminate.
Qed.

(** Rounding to [f] decimals gives NaN only for NaN. *)
Lemma fixed_nan (x : number) (f : nat) : Number (toFixed x f) = S754_nan -> x = S754_nan.
Proof.
  destruct x as [s | s | | s m e]; cbn [toFixed Number];
    try discriminate; [reflexivity |].
  destruct (10 ^ 21 * denominator e <=? numerator m e); cbn [Number]; [discriminate |].
  destruct ((2 * numerator m e * 10 ^ Z.of_nat f + denominator e) / (2 * denominator e));
    try discriminate.
  intros H. now apply round_ratio_not_nan in H.
Qed.

Lemma numerator_pos (m : positive) (e : Z) : 0 < numerator m e.
Proof. unfold numerator. apply Z.mul_pos_pos; [lia | apply Z.pow_pos_nonneg; lia]. Qed.

Lemma denominator_pos (e : Z) : 0 < denominator e.
Proof. unfold denominator. apply Z.pow_pos_nonneg; lia. Qed.

(** Rounding a signed number to two decimals: the result is zero, with the
    same sign, when the magnitude is under half a cent, and a number of the
    same sign otherwise. *)
Lemma fixed_signed (s : bool) (x : number) :
  signed s x ->
  (at_least x 1 200 = false /\ Number (toFixed x 2) = S754_zero s)
  \/ (at_least x 1 200 = true /\ signed s (Number (toFixed x 2))).
Proof.
  intros [-> | [m [e ->]]].
  - right. split; [reflexivity | left; reflexivity].
  - cbn [toFixed at_least].
    pose proof (numerator_pos m e) as Hp. pose proof (denominator_pos e) as Hq.
    set (p := numerator m e) in *. set (q := denominator e) in *.
    destruct (Z.leb_spec (10 ^ 21 * q) p) as [Hbig | Hsmall].
    + right. cbn [Number]. split; [apply Z.leb_le; lia | right; eauto].
    + cbn [Number]. change (Z.of_nat 2) with 2. change (10 ^ 2) with 100.
      change (pow10 2) with 100%positive.
      destruct (Z.leb_spec (1 * q) (200 * p)) as [Hge | Hlt].
      * right. split; [reflexivity |].
        assert (Hn : 1 <= (2 * p * 100 + q) / (2 * q))
          by (apply Z.div_le_lower_bound; lia).
        destruct ((2 * p * 100 + q) / (2 * q)) as [| n | n]; try lia.
        apply round_ratio_cents.
      * left. split; [reflexivity |].
        rewrite Z.div_small by lia. reflexivity.
Qed.

Lemma SFcompare_swap (x y : number) :
  SFcompare y x = option_map CompOpp (SFcompare x y).
Proof.
  destruct x as [sx | sx | | sx mx ex], y as [sy | sy | | sy my ey]; simpl;
    try reflexivity;
    try (destruct sx; reflexivity); try (destruct sy; reflexivity);
    try (destruct sx, sy; reflexivity).
  destruct sx, sy; try reflexivity;
    rewrite (Z.compare_antisym ex ey); destruct (ex ?= ey); simpl; try reflexivity;
    rewrite (Pos.compare_cont_antisym mx my Eq); reflexivity.
Qed.

Lemma signed_compare_zero (s : bool) (x : number) :
  signed s x -> SFcompare x (S754_zero false) = Some (if s then Lt else Gt).
Proof. intros [-> | [m [e ->]]]; destruct s; reflexivity. Qed.

(** The rounded difference of two doubles, by the way they compare. *)
Lemma fixed_difference (x y : number) :
  is_double x -> is_double y ->
  match SFcompare x y with
  | Some Gt =>
      SFcompare (Number (toFixed (sub x y) 2)) (S754_zero false)
      = Some (if at_least (sub x y) 1 200 then Gt else Eq)
  | Some Lt =>
      SFcompare (Number (toFixed (sub x y) 2)) (S754_zero false)
      = Some (if at_least (sub x y) 1 200 then Lt else Eq)
  | Some Eq =>
      is_finite x = true ->
      SFcompare (Number (toFixed (sub x y) 2)) (S754_zero false) = Some Eq
  | None => True
  end.
Proof.
  intros Hx Hy. pose proof (sub_sign x y Hx Hy) as Hs.
  destruct (SFcompare x y) as [[| |] |]; [| | | exact I].
  - intros Hf. destruct (Hs Hf) as [s ->]. reflexivity.
  - destruct (fixed_signed _ _ Hs) as [[-> ->] | [-> Hr]];
      [reflexivity | exact (signed_compare_zero _ _ Hr)].
  - destruct (fixed_signed _ _ Hs) as [[-> ->] | [-> Hr]];
      [reflexivity | exact (signed_compare_zero _ _ Hr)].
Qed.

End Numbers.

(** ** The comparison record *)

Section RecordFacts.

Import FiraDataDto.
Variable d : FiraDataDto.t.
Local Open Scope js_scope.

Lemma feeCharges_current :
  feeCharges (Comparison.currentProvider (transformedData d))
  = [ fixed (platformWireFee d) 2; fixed (platformFiraFee d) 2;
      fixed (platformTransactionFee d) 2 ].
Proof. reflexivity. Qed.

Lemma feeCharges_skydo :
  feeCharges (Comparison.skydo (transformedData d))
  = [ fixed (skydoWireFee d) 2; fixed (skydoFiraFee d) 2;
      fixed (transactionSkydoFee d) 2 ].
Proof. reflexivity. Qed.

(** When two-decimal rounding leaves each fee as it is, the total is also
    the rounded sum of the displayed charges. *)
Lemma total_of_cent_fees :
  fixed (platformWireFee d) 2 = platformWireFee d ->
  fixed (platformFiraFee d) 2 = platformFiraFee d ->
  fixed (platformTransactionFee d) 2 = platformTransactionFee d ->
  Provider.totalOnTransaction (Comparison.currentProvider (transformedData d))
  = roundedChargeTotal (Comparison.currentProvider (transformedData d)).
Proof.
  intros Hw Hf Ht. unfold roundedChargeTotal.
  rewrite feeCharges_current, Hw, Hf, Ht. reflexivity.
Qed.

Lemma skydo_total_of_cent_fees :
  fixed (skydoWireFee d) 2 = skydoWireFee d ->
  fixed (skydoFiraFee d) 2 = skydoFiraFee d ->
  fixed (transactionSkydoFee d) 2 = transactionSkydoFee d ->
  Provider.totalOnTransaction (Comparison.skydo (transformedData d))
  = roundedChargeTotal (Comparison.skydo (transformedData d)).
Proof.
  intros Hw Hf Ht. unfold roundedChargeTotal.
  rewrite feeCharges_skydo, Hw, Hf, Ht. reflexivity.
Qed.

(** When two-decimal rounding leaves the difference of the final amounts
    as it is, the percentage is also that of the rounded amount. *)
Lemma percentage_of_cent_difference :
  fixed (finalInrAmountSkydo d - finalInrAmount d) 2
  = finalInrAmountSkydo d - finalInrAmount d ->
  Savings.percentage (Comparison.savings (transformedData d))
  = percentageOfRoundedAmount d (Comparison.savings (transformedData d)).
Proof.
  intros Hd. unfold percentageOfRoundedAmount. simpl. rewrite Hd. reflexivity.
Qed.

End RecordFacts.

(** C1, as the code has it: for both providers [totalOnTransaction] is the
    two-decimal rounding of the sum of the three fees as received, not of
    the three displayed charges, which are rounded one by one. *)
Theorem totalOnTransaction_rounds_raw_sum (d : FiraDataDto.t) :
  Provider.totalOnTransaction (Comparison.currentProvider (transformedData d))
  = fixed (FiraDataDto.platformWireFee d + FiraDataDto.platformFiraFee d
           + FiraDataDto.platformTransactionFee d)%js 2
  /\ Provider.totalOnTransaction (Comparison.skydo (transformedData d))
     = fixed (FiraDataDto.skydoWireFee d + FiraDataDto.skydoFiraFee d
              + FiraDataDto.transactionSkydoFee d)%js 2
  /\ feeCharges (Comparison.currentProvider (transformedData d))
     = map (fun fee => fixed fee 2)
           [ FiraDataDto.platformWireFee d; FiraDataDto.platformFiraFee d;
             FiraDataDto.platformTransactionFee d ]
  /\ feeCharges (Comparison.skydo (transformedData d))
     = map (fun fee => fixed fee 2)
           [ FiraDataDto.skydoWireFee d; FiraDataDto.skydoFiraFee d;
             FiraDataDto.transactionSkydoFee d ].
Proof. repeat split. Qed.

(** C1 as written fails: with three fees of 0.004 every displayed charge is
    0.00, so their rounded sum is 0, while [totalOnTransaction] is 0.01;
    the same holds for the Skydo breakdown. *)
Lemma subCentFees_total_is_not_charge_sum :
  let current := Comparison.currentProvider (transformedData subCentFees) in
  let skydo := Comparison.skydo (transformedData subCentFees) in
  feeCharges current = [S754_zero false; S754_zero false; S754_zero false]
  /\ roundedChargeTotal current = S754_zero false
  /\ Provider.totalOnTransaction current = JS.decimal 1 2
  /\ Provider.totalOnTransaction current <> roundedChargeTotal current
  /\ Provider.totalOnTransaction skydo <> roundedChargeTotal skydo.
Proof.
  vm_compute. repeat split; discriminate.
Qed.

(** C2, with the figure the code produces: on the example scenario the
    current provider's total is 800 and its effective cost 0.96, the
    alternative's payment amount is 84500 and its effective cost 0.95, the
    savings are 1500 and their percentage is 1.82. *)
Theorem scenario_figures (skydoWireFee skydoFiraFee transactionSkydoFee : number) :
  let input := scenario skydoWireFee skydoFiraFee transactionSkydoFee in
  Provider.totalOnTransaction (Comparison.currentProvider (transformedData input))
  = JS.of_Z 800
  /\ Provider.effectiveCost (Comparison.currentProvider (transformedData input))
     = JS.decimal 96 2
  /\ skydoOriginalInrAmount input = JS.of_Z 84500
  /\ Provider.paymentAmount (Comparison.skydo (transformedData input)) = JS.of_Z 84500
  /\ Provider.effectiveCost (Comparison.skydo (transformedData input)) = JS.decimal 95 2
  /\ Savings.amount (Comparison.savings (transformedData input)) = JS.of_Z 1500
  /\ Savings.percentage (Comparison.savings (transformedData input)) = JS.decimal 182 2.
Proof.
  cbv zeta. repeat split; vm_compute; reflexivity.
Qed.

(** C2 as written fails in its last figure: 1500 / 82200 * 100 is
    1.8248..., which two decimals round to 1.82 and not to 1.83. *)
Lemma scenario_percentage_is_not_1_83 :
  let input := scenario (JS.of_Z 500) (JS.of_Z 200) (JS.of_Z 100) in
  Savings.percentage (Comparison.savings (transformedData input)) <> JS.decimal 183 2
  /\ JS.eq (Savings.percentage (Comparison.savings (transformedData input)))
           (JS.decimal 183 2) = false
  /\ JS.lt (Savings.percentage (Comparison.savings (transformedData input)))
           (JS.decimal 183 2) = true.
Proof.
  vm_compute. repeat split; discriminate.
Qed.

(** C3, as the code has it: [Savings.amount] is the difference of the two
    final amounts rounded to two decimals, and [Savings.percentage] is the
    difference itself, not its rounding, over [finalInrAmount], times 100,
    rounded to two decimals. *)
Theorem savings_formulas (d : FiraDataDto.t) :
  Savings.amount (Comparison.savings (transformedData d))
  = fixed (FiraDataDto.finalInrAmountSkydo d - FiraDataDto.finalInrAmount d)%js 2
  /\ Savings.percentage (Comparison.savings (transformedData d))
     = fixed (((FiraDataDto.finalInrAmountSkydo d - FiraDataDto.finalInrAmount d)
               / FiraDataDto.finalInrAmount d) * hundred)%js 2.
Proof. split; reflexivity. Qed.

(** C3 as written fails: for final amounts 1 and 1.004 the rounded amount
    is 0.00, whose percentage would be 0, while [Savings.percentage] is
    0.40. *)
Lemma subCentSavings_percentage_of_raw_difference :
  let savings := Comparison.savings (transformedData subCentSavings) in
  JS.eq (FiraDataDto.finalInrAmount subCentSavings) (JS.of_Z 0) = false
  /\ Savings.amount savings = S754_zero false
  /\ percentageOfRoundedAmount subCentSavings savings = S754_zero false
  /\ Savings.percentage savings = JS.decimal 40 2
  /\ Savings.percentage savings <> percentageOfRoundedAmount subCentSavings savings.
Proof.
  vm_compute. repeat split; discriminate.
Qed.

(** The same on amounts with two decimals, 200.00 and 200.01: the double
    difference is just under 0.01, so the code's percentage is 0.00 where
    that of the rounded amount 0.01 is 0.01. *)
Lemma oneCentSavings_percentages :
  let savings := Comparison.savings (transformedData oneCentSavings) in
  Savings.amount savings = JS.decimal 1 2
  /\ Savings.percentage savings = S754_zero false
  /\ percentageOfRoundedAmount oneCentSavings savings = JS.decimal 1 2.
Proof.
  vm_compute. repeat split.
Qed.

(** ** The upload form *)

Lemma includes_In (l : list string) (x : string) :
  FileUpload.includes l x = true <-> In x l.
Proof.
  unfold FileUpload.includes. rewrite existsb_exists. split.
  - intros [y [Hin Heq]]. apply String.eqb_eq in Heq. now subst.
  - intros Hin. exists x. split; [assumption | apply String.eqb_refl].
Qed.

(** C6: [canAnalyze] is true exactly when a file is selected, a payment
    method is chosen and the terms are accepted, and [handleAnalyze] calls
    [onFileUpload], with that file and method, exactly then. *)
Theorem canAnalyze_iff (s : FileUpload.State) :
  (FileUpload.canAnalyze s = true <->
     FileUpload.uploadedFile s <> None
     /\ FileUpload.paymentMethod s <> None
     /\ FileUpload.acceptedTerms s = true)
  /\ (FileUpload.canAnalyze s = false <->
        FileUpload.uploadedFile s = None
        \/ FileUpload.paymentMethod s = None
        \/ FileUpload.acceptedTerms s = false)
  /\ (FileUpload.canAnalyze s = true <->
        exists file method,
          FileUpload.handleAnalyze s = Some (file, method)
          /\ FileUpload.uploadedFile s = Some file
          /\ FileUpload.paymentMethod s = Some method)
  /\ (FileUpload.canAnalyze s = false <-> FileUpload.handleAnalyze s = None).
Proof.
  unfold FileUpload.canAnalyze, FileUpload.handleAnalyze.
  destruct s as [[file|] preview [|] [method|]]; simpl;
    repeat split; try congruence; intros;
    repeat match goal with
           | H : _ /\ _ |- _ => destruct H
           | H : _ \/ _ |- _ => destruct H
           | H : exists _, _ |- _ => destruct H
           end;
    try congruence; eauto.
Qed.

Lemma handleFile_rejects (url : string) (s : FileUpload.State) (file : File.t) :
  ~ In (File.type file) FileUpload.validTypes ->
  FileUpload.handleFile url s file = (s, [FileUpload.invalidFileType]).
Proof.
  intros Hn. unfold FileUpload.handleFile.
  destruct (FileUpload.includes FileUpload.validTypes (File.type file)) eqn:Hin;
    [| reflexivity].
  apply includes_In in Hin. contradiction.
Qed.

(** C7: a file whose declared type is not one of application/pdf,
    image/png, image/jpeg (also spelt image/jpg) is rejected with the
    "Invalid file type" toast and the form state stays as it was; a file
    whose declared type is one of them becomes the selected file, without a
    toast, and the method and the terms are kept. *)
Theorem handleFile_checks_type (url : string) (s : FileUpload.State) (file : File.t) :
  (~ In (File.type file) FileUpload.validTypes ->
     FileUpload.handleFile url s file = (s, [FileUpload.invalidFileType]))
  /\ (In (File.type file) FileUpload.validTypes ->
        FileUpload.uploadedFile (fst (FileUpload.handleFile url s file)) = Some file
        /\ FileUpload.paymentMethod (fst (FileUpload.handleFile url s file))
           = FileUpload.paymentMethod s
        /\ FileUpload.acceptedTerms (fst (FileUpload.handleFile url s file))
           = FileUpload.acceptedTerms s
        /\ snd (FileUpload.handleFile url s file) = []).
Proof.
  unfold FileUpload.handleFile.
  destruct (FileUpload.includes FileUpload.validTypes (File.type file)) eqn:Hin;
    cbn [negb fst snd].
  - apply includes_In in Hin. split; [intros Hn; contradiction | intros _; repeat split].
  - split; [reflexivity |].
    intros HIn. apply includes_In in HIn. congruence.
Qed.

Lemma handleFile_checks_type_witness :
  FileUpload.handleFile "blob:1" FileUpload.initial spreadsheet
  = (FileUpload.initial, [FileUpload.invalidFileType])
  /\ FileUpload.uploadedFile (fst (FileUpload.handleFile "blob:1" FileUpload.initial invoice))
     = Some invoice.
Proof.
  split.
  - apply (handleFile_checks_type "blob:1" FileUpload.initial spreadsheet).
    simpl. intros H. repeat (destruct H as [H | H]; [discriminate H |]). exact H.
  - apply (handleFile_checks_type "blob:1" FileUpload.initial invoice).
    simpl. left. reflexivity.
Defined.

(** In the transition system a rejected file changes nothing but the list
    of toasts shown. *)
Lemma step_rejected_file (inOperatorMessage : json -> string) (a a' : App.t)
      (file : File.t) (url : string) :
  ~ In (File.type file) FileUpload.validTypes ->
  step inOperatorMessage a (SelectFile file url) = Some a' ->
  App.page a' = App.page a /\ App.form a' = App.form a
  /\ App.pending a' = App.pending a
  /\ App.toasts a' = App.toasts a ++ [FileUpload.invalidFileType].
Proof.
  intros Hn. simpl.
  destruct (Index.showsFileUpload (App.page a)); [| discriminate].
  rewrite (handleFile_rejects url (App.form a) file Hn).
  intros H. injection H as <-. repeat split.
Qed.

(** ** Failure messages *)




Lemma uploadAndProcessFira_throws_text (inOperatorMessage : json -> string)
      (net : FetchOutcome) (e : exn) :
  uploadAndProcessFira inOperatorMessage net = Throw e ->
  exists text, e = Error ("Failed to upload FIRA file: " ++ text).
Proof.
  unfold uploadAndProcessFira.
  destruct (request inOperatorMessage net); intros H; [discriminate |].
  injection H as <-. eexists. reflexivity.
Qed.

(** The other failure paths have a text: a thrown upload error starts with
    the prefix of [uploadAndProcessFira], and missing data has its own
    message. *)
Lemma other_failures_have_text (inOperatorMessage : json -> string) (s : Index.State) :
  (forall net e,
      uploadAndProcessFira inOperatorMessage net = Throw e ->
      exists text,
        snd (Index.handleFileUpload_resume s (Throw e))
        = [Index.processingFailed ("Failed to upload FIRA file: " ++ text)])
  /\ (forall r,
         FiraProcessingResult.success r = true ->
         FiraProcessingResult.firaData r = None ->
         snd (Index.handleFileUpload_resume s (Normal r))
         = [Index.processingFailed "No data received from server"]).
Proof.
  split.
  - intros net e He.
    destruct (uploadAndProcessFira_throws_text inOperatorMessage net e He) as [text ->].
    exists text. reflexivity.
  - intros r Hs Hd. unfold Index.handleFileUpload_resume, Index.analyse. simpl.
    rewrite Hs, Hd. reflexivity.
Qed.

(** The failure example, from the filled form to the toast. *)
Lemma unreadable_document_toast :
  option_map (fun a => (App.page a, App.toasts a))
    (run engineText start (filled ++ [Settle 0 unreadableResponse]))
  = Some ({| Index.uploadedFile := Some invoice; Index.analysisData := None;
             Index.isAnalyzing := false |},
          [Index.processingFailed "Unable to read document"]).
Proof. reflexivity. Qed.




(** ** Failure paths of a submission *)

Lemma failed_iff_throws (outcome : completion FiraProcessingResult.t) :
  Index.failed outcome = true <-> exists e, Index.analyse outcome = Throw e.
Proof.
  unfold Index.failed, Index.analyse.
  destruct outcome as [r | e]; simpl.
  - destruct (FiraProcessingResult.success r); simpl.
    + destruct (FiraProcessingResult.firaData r); simpl; split;
        try discriminate; eauto.
      intros [e He]. discriminate He.
    + split; eauto.
  - split; eauto.
Qed.

Lemma resume_after_throw (s : Index.State) (outcome : completion FiraProcessingResult.t)
      (e : exn) :
  Index.analyse outcome = Throw e ->
  Index.handleFileUpload_resume s outcome
  = ({| Index.uploadedFile := Index.uploadedFile s;
        Index.analysisData := Index.analysisData s;
        Index.isAnalyzing := false |},
     [Index.processingFailed
        (error_message e "Failed to process the FIRA document. Please try again.")]).
Proof. intros He. unfold Index.handleFileUpload_resume. rewrite He. reflexivity. Qed.

(** C10: when the settled call is a failure (the call threw, which is how
    transport, parse and validation errors arrive; or [success] is false;
    or [firaData] is missing), [handleFileUpload] leaves [analysisData]
    (and [uploadedFile]) as they were, sets [isAnalyzing] to false and shows
    exactly one destructive toast. *)
Theorem failure_keeps_analysisData (s : Index.State)
        (outcome : completion FiraProcessingResult.t) :
  Index.failed outcome = true ->
  Index.analysisData (fst (Index.handleFileUpload_resume s outcome)) = Index.analysisData s
  /\ Index.uploadedFile (fst (Index.handleFileUpload_resume s outcome)) = Index.uploadedFile s
  /\ Index.isAnalyzing (fst (Index.handleFileUpload_resume s outcome)) = false
  /\ exists text, snd (Index.handleFileUpload_resume s outcome) = [Index.processingFailed text].
Proof.
  intros Hf. apply failed_iff_throws in Hf. destruct Hf as [e He].
  rewrite (resume_after_throw s outcome e He). simpl.
  repeat split. eexists. reflexivity.
Qed.

Lemma failure_keeps_analysisData_witness :
  let shown := {| Index.uploadedFile := Some invoice;
                  Index.analysisData := Some (transformedData subCentFees);
                  Index.isAnalyzing := true |} in
  Index.analysisData
    (fst (Index.handleFileUpload_resume shown (Throw (Error "Failed to upload FIRA file: Network error"))))
  = Some (transformedData subCentFees)
  /\ Index.isAnalyzing
       (fst (Index.handleFileUpload_resume shown (Throw (Error "Failed to upload FIRA file: Network error"))))
     = false.
Proof.
  intros shown.
  destruct (failure_keeps_analysisData shown
              (Throw (Error "Failed to upload FIRA file: Network error")))
    as [Hdata [_ [Hflag _]]].
  - reflexivity.
  - split; [exact Hdata | exact Hflag].
Defined.

(** The same in the transition system: a settling call that fails changes
    neither the stored record nor, beyond removing itself, the pending
    calls. *)
Lemma step_failure_keeps_analysisData (inOperatorMessage : json -> string)
      (a a' : App.t) (i : nat) (net : FetchOutcome)
      (outcome : completion FiraProcessingResult.t) :
  settled inOperatorMessage net = Some outcome ->
  Index.failed outcome = true ->
  step inOperatorMessage a (Settle i net) = Some a' ->
  Index.analysisData (App.page a') = Index.analysisData (App.page a)
  /\ Index.isAnalyzing (App.page a') = false
  /\ App.pending a' = remove_nth i (App.pending a).
Proof.
  intros Hs Hf. simpl. rewrite Hs.
  destruct (nth_error (App.pending a) i); [| discriminate].
  apply failed_iff_throws in Hf. destruct Hf as [e He].
  rewrite (resume_after_throw (App.page a) outcome e He).
  intros H. injection H as <-. simpl. repeat split.
Qed.

(** ** Validation of the response *)

Lemma filter_throwing_total {A : Type} (p : A -> completion bool) (q : A -> bool)
      (l : list A) :
  (forall a, p a = Normal (q a)) ->
  filter_throwing p l = Normal (filter q l).
Proof.
  intros Hp. induction l as [| a rest IH]; simpl; [reflexivity |].
  rewrite Hp, IH. simpl. destruct (q a); reflexivity.
Qed.

Lemma missingFields_object (inOperatorMessage : json -> string)
      (members : list (string * json)) :
  missingFields inOperatorMessage (JObject members)
  = Normal (filter (fun field => negb (isSome (lookup field members))) requiredFields).
Proof.
  unfold missingFields. apply filter_throwing_total.
  intros field. unfold is_missing. simpl. now rewrite orb_diag.
Qed.

Lemma no_missing_field {A : Type} (present : A -> bool) (l : list A) :
  Nat.ltb 0 (List.length (filter (fun a => negb (present a)) l)) = negb (forallb present l).
Proof.
  induction l as [| a rest IH]; simpl; [reflexivity |].
  destruct (present a); simpl; [exact IH | reflexivity].
Qed.

(** C4, as the code has it: for a response with [success: true] the
    validation looks at presence only.  It throws when [firaData] is absent
    or null, and when one of the seven required fields is absent from the
    data object, naming the absent fields; when all seven are present the
    response is returned as it is, whatever the values of the fields. *)
Theorem validate_checks_presence (inOperatorMessage : json -> string) (result : json) :
  get result "success" = Some (JBool true) ->
  (forall members, get result "firaData" = Some (JObject members) ->
     validate inOperatorMessage result
     = if forallb (fun field => isSome (lookup field members)) requiredFields
       then Normal result
       else Throw (Error ("Server response missing required fields: "
                          ++ join ", " (filter (fun field => negb (isSome (lookup field members)))
                                               requiredFields))))
  /\ (get result "firaData" = None \/ get result "firaData" = Some JNull ->
        validate inOperatorMessage result
        = Throw (Error "Server returned success but no data")).
Proof.
  intros Hs.
  assert (Ht : truthy result = true).
  { destruct result; simpl in Hs; try discriminate Hs. reflexivity. }
  unfold validate. rewrite Ht, Hs. cbn [negb is_boolean is_true orb].
  split.
  - intros members Hd. rewrite Hd. cbn [truthy negb].
    rewrite missingFields_object. cbn [bind].
    rewrite no_missing_field.
    destruct (forallb _ requiredFields); reflexivity.
  - intros [-> | ->]; reflexivity.
Qed.

Lemma validate_checks_presence_witness :
  validate engineText zeroInrAmountResult = Normal zeroInrAmountResult.
Proof.
  destruct (validate_checks_presence engineText zeroInrAmountResult) as [Hpresent _].
  - reflexivity.
  - rewrite (Hpresent (match zeroInrAmountData with JObject m => m | _ => [] end)).
    + reflexivity.
    + reflexivity.
Defined.

(** C4 as written fails: a response whose [inrAmount] is zero passes the
    validation, the comparison is computed, and the stored record holds
    -Infinity as the current provider's effective cost. *)
Lemma zero_inrAmount_is_analysed :
  uploadAndProcessFira engineText zeroInrAmountResponse = Normal zeroInrAmountResult
  /\ option_map FiraProcessingResult.firaData (asResult zeroInrAmountResult)
     = Some (Some zeroInrAmount)
  /\ JS.eq (FiraDataDto.inrAmount zeroInrAmount) (JS.of_Z 0) = true
  /\ option_map (fun a => Index.analysisData (App.page a))
       (run engineText start (filled ++ [Settle 0 zeroInrAmountResponse]))
     = Some (Some (transformedData zeroInrAmount))
  /\ Provider.effectiveCost (Comparison.currentProvider (transformedData zeroInrAmount))
     = S754_infinity true
  /\ JS.is_finite
       (Provider.effectiveCost (Comparison.currentProvider (transformedData zeroInrAmount)))
     = false.
Proof.
  vm_compute. repeat split.
Qed.

(** ** One submission at a time *)

Section StepFacts.

Variable inOperatorMessage : json -> string.

Lemma run_reachable (events : list Event) :
  forall a a', reachable inOperatorMessage a -> run inOperatorMessage a events = Some a' ->
               reachable inOperatorMessage a'.
Proof.
  induction events as [| e rest IH]; intros a a' Hr; simpl.
  - intros H. injection H as <-. exact Hr.
  - destruct (step inOperatorMessage a e) as [a1 |] eqn:He; [| discriminate].
    apply IH. eapply reachable_step; eassumption.
Qed.

Lemma analysing_hides_form (page : Index.State) :
  Index.isAnalyzing page = true -> Index.showsFileUpload page = false.
Proof.
  unfold Index.showsFileUpload. intros ->. apply andb_false_r.
Qed.

Lemma remove_nth_length {A : Type} (l : list A) :
  forall i, (List.length (remove_nth i l) <= List.length l)%nat.
Proof.
  induction l as [| x rest IH]; intros [| j]; simpl; auto with arith.
Qed.

Lemma remove_nth_present {A : Type} (l : list A) :
  forall i x, nth_error l i = Some x ->
              S (List.length (remove_nth i l)) = List.length l.
Proof.
  induction l as [| y rest IH]; intros [| j] x; simpl; try discriminate.
  - reflexivity.
  - intros H. f_equal. eapply IH. eassumption.
Qed.

Lemma resume_not_analysing (page : Index.State)
      (outcome : completion FiraProcessingResult.t) :
  Index.isAnalyzing (fst (Index.handleFileUpload_resume page outcome)) = false.
Proof.
  unfold Index.handleFileUpload_resume. destruct (Index.analyse outcome); reflexivity.
Qed.

(** While [isAnalyzing] is true no event starts a call. *)
Lemma no_call_while_analysing (a a' : App.t) (e : Event) :
  Index.isAnalyzing (App.page a) = true ->
  step inOperatorMessage a e = Some a' ->
  e <> ClickAnalyze /\ (List.length (App.pending a') <= List.length (App.pending a))%nat.
Proof.
  intros Han. pose proof (analysing_hides_form _ Han) as Hhide.
  destruct e; simpl; rewrite ?Hhide; simpl; try discriminate.
  - destruct (nth_error (App.pending a) i); [| discriminate].
    destruct (settled inOperatorMessage net) as [outcome |]; [| discriminate].
    destruct (Index.handleFileUpload_resume (App.page a) outcome).
    intros H. injection H as <-. simpl. split; [discriminate | apply remove_nth_length].
  - intros H. injection H as <-. simpl. split; [discriminate | apply Nat.le_refl].
  - destruct (Index.showsComparisonResults (App.page a)); [| discriminate].
    intros H. injection H as <-. simpl. split; [discriminate | apply Nat.le_refl].
Qed.

Lemma pending_tracks_flag_start : pending_tracks_flag start.
Proof. split; [reflexivity | discriminate]. Qed.

Lemma showsFileUpload_true (page : Index.State) :
  Index.showsFileUpload page = true ->
  Index.analysisData page = None /\ Index.isAnalyzing page = false.
Proof.
  unfold Index.showsFileUpload.
  destruct (Index.analysisData page), (Index.isAnalyzing page); simpl;
    intros H; try discriminate H; split; reflexivity.
Qed.

Lemma pending_tracks_flag_preserved (a a' : App.t) (e : Event) :
  pending_tracks_flag a -> undisturbed a e = true -> step inOperatorMessage a e = Some a' -> pending_tracks_flag a'.
Proof.
  intros [Hlen Hdata] Hund.
  destruct e; simpl.
  - destruct (Index.showsFileUpload (App.page a)); [| discriminate].
    destruct (FileUpload.handleFile url (App.form a) file).
    intros H. injection H as <-. split; assumption.
  - destruct (Index.showsFileUpload (App.page a) && _); [| discriminate].
    intros H. injection H as <-. split; assumption.
  - destruct (Index.showsFileUpload (App.page a) && _); [| discriminate].
    intros H. injection H as <-. split; assumption.
  - destruct (Index.showsFileUpload (App.page a)) eqn:Hshow; [| discriminate].
    destruct (showsFileUpload_true _ Hshow) as [Hnone Hidle].
    rewrite Hidle in Hlen.
    destruct (FileUpload.canAnalyze (App.form a)); [| discriminate]. simpl.
    destruct (FileUpload.handleAnalyze (App.form a)) as [[file method] |].
    + intros H. injection H as <-. split; simpl.
      * rewrite length_app, Hlen. reflexivity.
      * intros _. exact Hnone.
    + intros H. injection H as <-. split; [now rewrite Hidle | assumption].
  - destruct (nth_error (App.pending a) i) as [call |] eqn:Hnth; [| discriminate].
    destruct (settled inOperatorMessage net) as [outcome |]; [| discriminate].
    pose proof (resume_not_analysing (App.page a) outcome) as Hidle.
    destruct (Index.handleFileUpload_resume (App.page a) outcome) as [page' shown].
    simpl in Hidle.
    intros H. injection H as <-. split; simpl; rewrite Hidle; [| discriminate].
    pose proof (remove_nth_present _ _ _ Hnth) as Hrem.
    destruct (Index.isAnalyzing (App.page a)).
    * rewrite Hlen in Hrem. now injection Hrem.
    * rewrite Hlen in Hrem. discriminate Hrem.
  - simpl in Hund. apply negb_true_iff in Hund. rewrite Hund in Hlen.
    intros H. injection H as <-. split; simpl; [exact Hlen | discriminate].
  - unfold Index.showsComparisonResults.
    destruct (Index.analysisData (App.page a)) eqn:Hd; [| discriminate]. simpl.
    intros H. injection H as <-. split; simpl; [| discriminate].
    destruct (Index.isAnalyzing (App.page a)); [| exact Hlen].
    specialize (Hdata eq_refl). discriminate Hdata.
Qed.

Lemma undisturbed_pending_tracks_flag (a : App.t) :
  reachable_undisturbed inOperatorMessage a -> pending_tracks_flag a.
Proof.
  induction 1 as [| a e a' _ IH Hund Hstep].
  - exact pending_tracks_flag_start.
  - eapply pending_tracks_flag_preserved; eassumption.
Qed.

End StepFacts.

(** C9, as the code has it: while [isAnalyzing] is true the form is not
    rendered, so Analyze cannot be clicked and no event starts a call; and
    in every run in which the logo is not clicked during an analysis, at
    most one call is pending, one exactly while [isAnalyzing] is true. *)
Theorem one_submission_at_a_time (inOperatorMessage : json -> string) (a : App.t) :
  (Index.isAnalyzing (App.page a) = true ->
     Index.showsFileUpload (App.page a) = false
     /\ step inOperatorMessage a ClickAnalyze = None
     /\ forall e a', step inOperatorMessage a e = Some a' ->
                     (List.length (App.pending a') <= List.length (App.pending a))%nat)
  /\ (reachable_undisturbed inOperatorMessage a ->
        (List.length (App.pending a) <= 1)%nat
        /\ (List.length (App.pending a) = 1%nat <-> Index.isAnalyzing (App.page a) = true)).
Proof.
  split.
  - intros Han. pose proof (analysing_hides_form _ Han) as Hhide.
    split; [exact Hhide | split].
    + simpl. rewrite Hhide. reflexivity.
    + intros e a' Hstep.
      exact (proj2 (no_call_while_analysing inOperatorMessage a a' e Han Hstep)).
  - intros Hr. destruct (undisturbed_pending_tracks_flag inOperatorMessage a Hr) as [Hlen _].
    rewrite Hlen. destruct (Index.isAnalyzing (App.page a)).
    + split; [apply Nat.le_refl | split; reflexivity].
    + split; [apply Nat.le_0_l | split; discriminate].
Qed.

(** The state after the form is filled in and Analyze is clicked. *)
Lemma one_submission_at_a_time_witness :
  exists a, run engineText start filled = Some a
            /\ step engineText a ClickAnalyze = None
            /\ (List.length (App.pending a) <= 1)%nat.
Proof.
  eexists. split; [vm_compute; reflexivity |].
  match goal with
  | |- step _ ?a _ = _ /\ _ =>
      destruct (one_submission_at_a_time engineText a) as [Hgate Hone]
  end.
  split.
  - apply Hgate. reflexivity.
  - apply Hone.
    eapply undisturbed_step with (e := ClickAnalyze).
    eapply undisturbed_step with (e := CheckTerms true).
    eapply undisturbed_step with (e := ChoosePaymentMethod BANK).
    eapply undisturbed_step with (e := SelectFile invoice "blob:1").
    apply undisturbed_start.
    all: reflexivity.
Defined.

(** C9 as written fails in its bound: the logo can be clicked while the
    first call is pending; the form is then rendered again and a second
    submission starts a second call. *)
Lemma resubmitted_two_in_flight :
  option_map (fun a => List.length (App.pending a)) (run engineText start resubmitted)
  = Some 2%nat
  /\ ~ (forall a, reachable engineText a -> (List.length (App.pending a) <= 1)%nat).
Proof.
  split; [reflexivity |].
  intros Hall.
  destruct (run engineText start resubmitted) as [a |] eqn:Hrun; [| discriminate Hrun].
  assert (Hr : reachable engineText a).
  { eapply run_reachable; [apply reachable_start | exact Hrun]. }
  specialize (Hall a Hr).
  vm_compute in Hrun. injection Hrun as <-. simpl in Hall. lia.
Qed.

(** ** The sign of the savings *)

(** C5, as the code has it: for final amounts that are doubles,
    [Savings.amount] never has the sign opposite to that of the
    comparison, and it is zero exactly when the difference is under half a
    cent.  When [finalInrAmountSkydo > finalInrAmount] the amount is [>= 0],
    and [> 0] exactly when the difference is at least 0.005; when it is
    less, the amount is [<= 0], and [< 0] exactly when the difference is at
    least 0.005 in magnitude; when the two are equal and finite the amount
    is [== 0]. *)
Theorem savings_amount_sign (d : FiraDataDto.t) :
  let current := FiraDataDto.finalInrAmount d in
  let skydo := FiraDataDto.finalInrAmountSkydo d in
  let amount := Savings.amount (Comparison.savings (transformedData d)) in
  JS.is_double current -> JS.is_double skydo ->
  (JS.gt skydo current = true ->
     JS.ge amount (JS.of_Z 0) = true
     /\ JS.gt amount (JS.of_Z 0) = JS.at_least (skydo - current)%js 1 200)
  /\ (JS.lt skydo current = true ->
        JS.le amount (JS.of_Z 0) = true
        /\ JS.lt amount (JS.of_Z 0) = JS.at_least (skydo - current)%js 1 200)
  /\ (JS.eq skydo current = true -> JS.is_finite skydo = true ->
        JS.eq amount (JS.of_Z 0) = true).
Proof.
  intros current skydo amount Hc Hs.
  pose proof (fixed_difference skydo current Hs Hc) as Hd.
  assert (Hamount : amount = JS.Number (JS.toFixed (JS.sub skydo current) 2)) by reflexivity.
  change (JS.of_Z 0) with (S754_zero false).
  unfold JS.gt, JS.ge, JS.lt, JS.le, JS.eq, SFltb, SFleb, SFeqb.
  rewrite (SFcompare_swap amount (S754_zero false)).
  rewrite (SFcompare_swap skydo current).
  rewrite Hamount.
  destruct (SFcompare skydo current) as [[| |] |]; cbn [option_map CompOpp];
    (split; [| split]); try discriminate.
  - intros _ Hf. rewrite (Hd Hf). reflexivity.
  - intros _. rewrite Hd. destruct (JS.at_least _ 1 200); split; reflexivity.
  - intros _. rewrite Hd. destruct (JS.at_least _ 1 200); split; reflexivity.
Qed.

(** On the example scenario the savings are positive; on final amounts 1
    and 1.004 the alternative pays more and the amount is 0. *)
Lemma savings_amount_sign_witness :
  JS.gt (Savings.amount (Comparison.savings
           (transformedData (scenario (JS.of_Z 500) (JS.of_Z 200) (JS.of_Z 100)))))
        (JS.of_Z 0) = true
  /\ JS.ge (Savings.amount (Comparison.savings (transformedData subCentSavings)))
           (JS.of_Z 0) = true.
Proof.
  split.
  - destruct (savings_amount_sign (scenario (JS.of_Z 500) (JS.of_Z 200) (JS.of_Z 100)))
      as [Hgt _]; [reflexivity | reflexivity |].
    destruct Hgt as [_ Hstrict]; [reflexivity |].
    rewrite Hstrict. reflexivity.
  - destruct (savings_amount_sign subCentSavings) as [Hgt _]; [reflexivity | reflexivity |].
    destruct Hgt as [Hweak _]; [reflexivity |]. exact Hweak.
Defined.

(** C5 as written fails: with final amounts 1 and 1.004 the alternative's
    amount is the greater, and [Savings.amount] is 0, not greater than 0. *)
Lemma subCentSavings_amount_is_zero :
  JS.gt (FiraDataDto.finalInrAmountSkydo subCentSavings)
        (FiraDataDto.finalInrAmount subCentSavings) = true
  /\ Savings.amount (Comparison.savings (transformedData subCentSavings)) = S754_zero false
  /\ JS.gt (Savings.amount (Comparison.savings (transformedData subCentSavings)))
           (JS.of_Z 0) = false.
Proof. vm_compute. repeat split. Qed.

(** Equal amounts that are not finite give no zero either: Infinity minus
    Infinity is NaN. *)
Lemma infinite_amounts_savings_nan :
  let d := payload (JS.of_Z 1000) (JS.of_Z 83000) (JS.decimal 845 1) (JS.of_Z 83)
                   (JS.of_Z 500) (JS.of_Z 200) (JS.of_Z 100)
                   (JS.of_Z 500) (JS.of_Z 200) (JS.of_Z 100)
                   (S754_infinity false) (S754_infinity false) in
  JS.eq (FiraDataDto.finalInrAmountSkydo d) (FiraDataDto.finalInrAmount d) = true
  /\ Savings.amount (Comparison.savings (transformedData d)) = S754_nan.
Proof. vm_compute. split; reflexivity. Qed.

(** * Further properties of the source *)

(** ** What [uploadAndProcessFira] lets through *)

Lemma forallb_present (data : list (string * json)) :
  forallb (fun field => isSome (lookup field data)) requiredFields = true
  <-> forall field, In field requiredFields -> lookup field data <> None.
Proof.
  rewrite forallb_forall. split; intros H field Hin; specialize (H field Hin).
  - destruct (lookup field data); [discriminate | discriminate H].
  - destruct (lookup field data); [reflexivity | contradiction].
Qed.

Lemma validate_accepts (inOperatorMessage : json -> string) (result returned : json) :
  validate inOperatorMessage result = Normal returned <->
  returned = result
  /\ (get result "success" = Some (JBool false)
      \/ (get result "success" = Some (JBool true)
          /\ exists data,
               get result "firaData" = Some (JObject data)
               /\ forall field, In field requiredFields -> lookup field data <> None)).
Proof.
  unfold validate. split.
  - destruct (get result "success") as [[| success | | | |] |] eqn:Hs;
      cbn [is_boolean is_true negb orb]; rewrite ?orb_true_r; try discriminate.
    assert (Ht : truthy result = true)
      by (destruct result; simpl in Hs; try discriminate Hs; reflexivity).
    rewrite Ht. cbn [negb orb].
    destruct success.
    + destruct (get result "firaData") as [data |] eqn:Hd; [| discriminate].
      destruct data as [| b | x | str | items | data]; cbn [truthy negb].
      * discriminate.
      * destruct b; cbn [negb]; discriminate.
      * destruct x as [z | z | | z m e]; cbn [negb]; discriminate.
      * destruct (negb (String.eqb str EmptyString)); cbn [negb]; discriminate.
      * discriminate.
      * rewrite missingFields_object. cbn [bind]. rewrite no_missing_field.
        destruct (forallb _ requiredFields) eqn:Hall; cbn [negb]; [| discriminate].
        intros H. injection H as <-. split; [reflexivity |].
        right. split; [reflexivity |]. exists data. split; [reflexivity |].
        now apply forallb_present.
    + intros H. injection H as <-. split; [reflexivity | now left].
  - intros [-> [Hs | [Hs [data [Hd Hall]]]]].
    + assert (Ht : truthy result = true)
        by (destruct result; simpl in Hs; try discriminate Hs; reflexivity).
      rewrite Hs, Ht. reflexivity.
    + assert (Ht : truthy result = true)
        by (destruct result; simpl in Hs; try discriminate Hs; reflexivity).
      rewrite Hs, Ht, Hd. cbn [is_boolean is_true negb orb truthy].
      rewrite missingFields_object. cbn [bind]. rewrite no_missing_field.
      apply forallb_present in Hall. rewrite Hall. reflexivity.
Qed.

(** X1: [uploadAndProcessFira] resolves exactly when the response is ok,
    its body parses, and the parsed value is an object whose [success] is
    false, or is true with a [firaData] object holding all seven required
    fields; it then returns the parsed value itself.  A result with
    [success: false] is let through whatever else it holds. *)
Theorem uploadAndProcessFira_resolves_iff (inOperatorMessage : json -> string)
        (net : FetchOutcome) (result : json) :
  uploadAndProcessFira inOperatorMessage net = Normal result <->
  exists response,
    net = FetchResponse response
    /\ Response.ok response = true
    /\ Response.parsed response = Some result
    /\ (get result "success" = Some (JBool false)
        \/ (get result "success" = Some (JBool true)
            /\ exists data,
                 get result "firaData" = Some (JObject data)
                 /\ forall field, In field requiredFields -> lookup field data <> None)).
Proof.
  unfold uploadAndProcessFira, request. split.
  - destruct net as [error | response]; [discriminate |].
    destruct (Response.ok response) eqn:Hok; cbn [negb]; [| discriminate].
    destruct (Response.parsed response) as [parsed |] eqn:Hp; [| discriminate].
    destruct (validate inOperatorMessage parsed) as [returned | e] eqn:Hv; [| discriminate].
    intros H. injection H as <-.
    apply validate_accepts in Hv. destruct Hv as [-> Hshape].
    exists response. repeat split; assumption.
  - intros [response [-> [Hok [Hp Hshape]]]].
    rewrite Hok, Hp. cbn [negb].
    assert (Hv : validate inOperatorMessage result = Normal result)
      by (apply validate_accepts; split; [reflexivity | assumption]).
    rewrite Hv. reflexivity.
Qed.

(** ** From the response to the page *)






(** X3: whatever goes wrong inside [uploadAndProcessFira], the caller gets
    an [Error] whose message starts with "Failed to upload FIRA file: ",
    also when [fetch] rejected with a value that is not an [Error]; the
    toast of [handleFileUpload] then shows that message, never its own
    fallback text for values that are not errors. *)
Theorem upload_failure_is_prefixed (inOperatorMessage : json -> string)
        (net : FetchOutcome) (e : exn) (s : Index.State) :
  uploadAndProcessFira inOperatorMessage net = Throw e ->
  exists text,
    e = Error ("Failed to upload FIRA file: " ++ text)
    /\ Index.handleFileUpload_resume s (Throw e)
       = ({| Index.uploadedFile := Index.uploadedFile s;
             Index.analysisData := Index.analysisData s;
             Index.isAnalyzing := false |},
          [Index.processingFailed ("Failed to upload FIRA file: " ++ text)])
    /\ (forall value, net = FetchRejected value ->
          text = error_message value "Network error")
    /\ (forall response, net = FetchResponse response -> Response.ok response = false ->
          text = ("HTTP error! status: " ++ string_of_N (Response.status response)
                  ++ ", message: " ++ Response.responseText response)%string).
Proof.
  unfold uploadAndProcessFira. intros H.
  destruct (request inOperatorMessage net) as [result | error] eqn:Hr; [discriminate H |].
  injection H as <-. eexists. split; [reflexivity | split; [reflexivity | split]].
  - intros value ->. simpl in Hr. injection Hr as <-. reflexivity.
  - intros response -> Hok. simpl in Hr. rewrite Hok in Hr. simpl in Hr.
    injection Hr as <-. reflexivity.
Qed.

Lemma upload_failure_is_prefixed_witness :
  exists text,
    uploadAndProcessFira engineText (FetchRejected NonError)
    = Throw (Error ("Failed to upload FIRA file: " ++ text))
    /\ text = "Network error"%string.
Proof.
  destruct (upload_failure_is_prefixed engineText (FetchRejected NonError)
              (Error "Failed to upload FIRA file: Network error") Index.initial)
    as [text [He [_ [Hrej _]]]].
  - reflexivity.
  - exists text. rewrite (Hrej NonError eq_refl). split; reflexivity.
Defined.


(** ** What every reachable state satisfies *)

Lemma remove_nth_In {A : Type} (l : list A) :
  forall i x, In x (remove_nth i l) -> In x l.
Proof.
  induction l as [| y rest IH]; intros [| j] x; simpl; auto.
  intros [-> | H]; [now left | right; eauto].
Qed.

Lemma form_ok_initial : form_ok FileUpload.initial.
Proof. unfold form_ok; simpl. repeat split; discriminate. Qed.

Lemma well_formed_start : well_formed start.
Proof.
  unfold well_formed, start; simpl.
  refine (conj _ (conj form_ok_initial (conj _ (conj _ _)))); try discriminate.
  intros call [].
Qed.

Lemma form_ok_rendered (page : Index.State) (form : FileUpload.State) :
  form_ok form -> form_ok (rendered page form).
Proof.
  intros H. unfold rendered.
  destruct (Index.showsFileUpload page); [exact H | exact form_ok_initial].
Qed.

Lemma rendered_hidden (page : Index.State) (form : FileUpload.State) :
  Index.showsFileUpload page = false -> rendered page form = FileUpload.initial.
Proof. unfold rendered. intros ->. reflexivity. Qed.

Lemma form_ok_handleFile (url : string) (form : FileUpload.State) (file : File.t) :
  form_ok form -> form_ok (fst (FileUpload.handleFile url form file)).
Proof.
  intros H. unfold FileUpload.handleFile.
  destruct (FileUpload.includes FileUpload.validTypes (File.type file)) eqn:Hin;
    cbn [negb fst]; [| exact H].
  apply includes_In in Hin.
  unfold form_ok. cbn [FileUpload.uploadedFile FileUpload.previewUrl].
  refine (conj _ (conj _ _)).
  - intros f Hsel. injection Hsel as <-. exact Hin.
  - intros u Hu. exists file. split; [reflexivity |].
    destruct (String.prefix "image/" (File.type file)); [reflexivity | discriminate Hu].
  - intros f Hsel Himg. injection Hsel as <-. rewrite Himg. discriminate.
Qed.

Ltac well_formed_parts :=
  unfold well_formed; cbn [App.page App.form App.pending App.toasts];
  refine (conj _ (conj _ (conj _ (conj _ _)))).

Lemma well_formed_step (inOperatorMessage : json -> string) (a a' : App.t) (e : Event) :
  well_formed a -> step inOperatorMessage a e = Some a' -> well_formed a'.
Proof.
  intros Hwf. pose proof Hwf as [Hflag [Hform [Hpage [Hpending Hhidden]]]].
  destruct e; simpl.
  - destruct (Index.showsFileUpload (App.page a)) eqn:Hshow; [| discriminate].
    pose proof (form_ok_handleFile url (App.form a) file Hform) as Hf.
    destruct (FileUpload.handleFile url (App.form a) file) as [form' shown].
    cbn [fst] in Hf.
    intros Heq. injection Heq as <-. well_formed_parts; try assumption.
    intros Hhid. rewrite Hshow in Hhid. discriminate Hhid.
  - destruct (Index.showsFileUpload (App.page a)) eqn:Hshow; [| discriminate].
    destruct (isSome _); [| discriminate]. simpl.
    intros Heq. injection Heq as <-. well_formed_parts; try assumption.
    intros Hhid. rewrite Hshow in Hhid. discriminate Hhid.
  - destruct (Index.showsFileUpload (App.page a)) eqn:Hshow; [| discriminate].
    destruct (isSome _); [| discriminate]. simpl.
    intros Heq. injection Heq as <-. well_formed_parts; try assumption.
    intros Hhid. rewrite Hshow in Hhid. discriminate Hhid.
  - destruct (Index.showsFileUpload (App.page a)) eqn:Hshow; [| discriminate].
    destruct (showsFileUpload_true _ Hshow) as [Hnone Hidle].
    destruct (FileUpload.canAnalyze (App.form a)); [| discriminate]. simpl.
    unfold FileUpload.handleAnalyze.
    destruct (FileUpload.uploadedFile (App.form a)) as [file |] eqn:Hfile;
      [| intros Heq; injection Heq as <-; exact Hwf].
    destruct (FileUpload.acceptedTerms (App.form a));
      [| intros Heq; injection Heq as <-; exact Hwf].
    destruct (FileUpload.paymentMethod (App.form a)) as [method |];
      [| intros Heq; injection Heq as <-; exact Hwf].
    assert (Hr : rendered (Index.handleFileUpload_start (App.page a) file) (App.form a)
                 = FileUpload.initial)
      by (apply rendered_hidden; unfold Index.showsFileUpload; simpl; apply andb_false_r).
    rewrite Hr. destruct Hform as [Hvalid _].
    intros Heq. injection Heq as <-. well_formed_parts; simpl.
    + intros _. split; [exact Hnone |].
      intros Hnil. apply app_eq_nil in Hnil. destruct Hnil as [_ Hnil]. discriminate Hnil.
    + exact form_ok_initial.
    + intros f Hsel. injection Hsel as <-. apply Hvalid. exact Hfile.
    + intros call Hin. apply in_app_or in Hin. destruct Hin as [Hin | [<- | []]].
      * apply Hpending. exact Hin.
      * simpl. apply Hvalid. exact Hfile.
    + reflexivity.
  - destruct (nth_error (App.pending a) i) as [call |]; [| discriminate].
    destruct (settled inOperatorMessage net) as [outcome |]; [| discriminate].
    pose proof (resume_not_analysing (App.page a) outcome) as Hidle.
    assert (Hfile : Index.uploadedFile (fst (Index.handleFileUpload_resume (App.page a) outcome))
                    = Index.uploadedFile (App.page a))
      by (unfold Index.handleFileUpload_resume; destruct (Index.analyse outcome); reflexivity).
    destruct (Index.handleFileUpload_resume (App.page a) outcome) as [page' shown].
    cbn [fst] in Hidle, Hfile.
    intros Heq. injection Heq as <-. well_formed_parts.
    + rewrite Hidle. discriminate.
    + apply form_ok_rendered. exact Hform.
    + rewrite Hfile. exact Hpage.
    + intros c Hin. apply remove_nth_In in Hin. apply Hpending. exact Hin.
    + apply rendered_hidden.
  - intros Heq. injection Heq as <-. well_formed_parts.
    + discriminate.
    + apply form_ok_rendered. exact Hform.
    + discriminate.
    + exact Hpending.
    + apply rendered_hidden.
  - destruct (Index.showsComparisonResults (App.page a)); [| discriminate].
    intros Heq. injection Heq as <-. well_formed_parts.
    + discriminate.
    + apply form_ok_rendered. exact Hform.
    + discriminate.
    + exact Hpending.
    + apply rendered_hidden.
Qed.

Lemma reachable_well_formed (inOperatorMessage : json -> string) (a : App.t) :
  reachable inOperatorMessage a -> well_formed a.
Proof.
  induction 1 as [| a e a' _ IH Hstep].
  - exact well_formed_start.
  - exact (well_formed_step inOperatorMessage a a' e IH Hstep).
Qed.


(** X4: in every reachable state the page renders exactly one of the
    upload form, the loading stages and the comparison results. *)
Theorem exactly_one_view (inOperatorMessage : json -> string) (a : App.t) :
  reachable inOperatorMessage a ->
  (Index.showsFileUpload (App.page a) = true
   /\ Index.showsLoadingStages (App.page a) = false
   /\ Index.showsComparisonResults (App.page a) = false)
  \/ (Index.showsFileUpload (App.page a) = false
      /\ Index.showsLoadingStages (App.page a) = true
      /\ Index.showsComparisonResults (App.page a) = false)
  \/ (Index.showsFileUpload (App.page a) = false
      /\ Index.showsLoadingStages (App.page a) = false
      /\ Index.showsComparisonResults (App.page a) = true).
Proof.
  intros Hr. destruct (reachable_well_formed inOperatorMessage a Hr) as [Hflag _].
  unfold Index.showsFileUpload, Index.showsLoadingStages, Index.showsComparisonResults.
  destruct (Index.isAnalyzing (App.page a)).
  - destruct (Hflag eq_refl) as [-> _]. right. left. repeat split.
  - destruct (Index.analysisData (App.page a)); simpl.
    + right. right. repeat split.
    + left. repeat split.
Qed.

Lemma exactly_one_view_witness :
  exists a,
    run engineText start (filled ++ [Settle 0 zeroInrAmountResponse]) = Some a
    /\ Index.showsFileUpload (App.page a) = false
    /\ Index.showsLoadingStages (App.page a) = false
    /\ Index.showsComparisonResults (App.page a) = true.
Proof.
  eexists. split; [vm_compute; reflexivity |].
  match goal with
  | |- Index.showsFileUpload (App.page ?a) = _ /\ _ =>
      destruct (exactly_one_view engineText a) as [[H _] | [[_ [H _]] | H]]
  end.
  - eapply run_reachable with (events := filled ++ [Settle 0 zeroInrAmountResponse]);
      [apply reachable_start | vm_compute; reflexivity].
  - discriminate H.
  - discriminate H.
  - exact H.
Defined.

(** X5: in every reachable state the loading stages are shown only while
    a call of [uploadAndProcessFira] is pending, and no record is stored
    then. *)
Theorem loading_has_pending_call (inOperatorMessage : json -> string) (a : App.t) :
  reachable inOperatorMessage a ->
  Index.showsLoadingStages (App.page a) = true ->
  App.pending a <> [] /\ Index.analysisData (App.page a) = None.
Proof.
  intros Hr Hl. destruct (reachable_well_formed inOperatorMessage a Hr) as [Hflag _].
  destruct (Hflag Hl) as [Hd Hp]. split; assumption.
Qed.

Lemma loading_has_pending_call_witness :
  exists a, run engineText start filled = Some a /\ App.pending a <> [].
Proof.
  eexists. split; [vm_compute; reflexivity |].
  match goal with
  | |- App.pending ?a <> [] => destruct (loading_has_pending_call engineText a) as [H _]
  end.
  - eapply run_reachable with (events := filled);
      [apply reachable_start | vm_compute; reflexivity].
  - reflexivity.
  - exact H.
Defined.

(** X6: only files of an accepted type are ever submitted: in every
    reachable state each pending call, the file kept by the page and the
    file selected in the form have a declared type from [validTypes]. *)
Theorem only_accepted_types_are_sent (inOperatorMessage : json -> string) (a : App.t) :
  reachable inOperatorMessage a ->
  (forall call, In call (App.pending a) -> In (File.type (fst call)) FileUpload.validTypes)
  /\ (forall file, Index.uploadedFile (App.page a) = Some file ->
                   In (File.type file) FileUpload.validTypes)
  /\ (forall file, FileUpload.uploadedFile (App.form a) = Some file ->
                   In (File.type file) FileUpload.validTypes).
Proof.
  intros Hr.
  destruct (reachable_well_formed inOperatorMessage a Hr)
    as [_ [[Hform _] [Hpage [Hpending _]]]].
  repeat split; assumption.
Qed.

Lemma only_accepted_types_are_sent_witness :
  exists a,
    run engineText start (SelectFile spreadsheet "blob:0" :: filled) = Some a
    /\ forall call, In call (App.pending a) -> In (File.type (fst call)) FileUpload.validTypes.
Proof.
  eexists. split; [vm_compute; reflexivity |].
  match goal with
  | |- forall call, In call (App.pending ?a) -> _ =>
      destruct (only_accepted_types_are_sent engineText a) as [H _]
  end.
  - eapply run_reachable with (events := SelectFile spreadsheet "blob:0" :: filled);
      [apply reachable_start | vm_compute; reflexivity].
  - exact H.
Defined.

Lemma image_type (type : string) :
  In type FileUpload.validTypes ->
  (String.prefix "image/" type = true <-> type <> "application/pdf"%string).
Proof.
  simpl. intros [<- | [<- | [<- | [<- | []]]]]; simpl; split;
    try discriminate; try reflexivity; intros H; try discriminate H.
  contradiction H. reflexivity.
Qed.

(** X7: in every reachable state the form holds a preview URL exactly when
    its selected file is an image, that is, of an accepted type other than
    application/pdf; without a selected file there is no preview. *)
Theorem preview_exactly_for_images (inOperatorMessage : json -> string) (a : App.t) :
  reachable inOperatorMessage a ->
  (forall file, FileUpload.uploadedFile (App.form a) = Some file ->
     (FileUpload.previewUrl (App.form a) <> None
      <-> File.type file <> "application/pdf"%string))
  /\ (FileUpload.uploadedFile (App.form a) = None ->
        FileUpload.previewUrl (App.form a) = None).
Proof.
  intros Hr.
  destruct (reachable_well_formed inOperatorMessage a Hr)
    as [_ [[Hvalid [Hpreview Himage]] _]].
  split.
  - intros file Hfile. rewrite <- (image_type _ (Hvalid file Hfile)). split.
    + intros Hsome. destruct (FileUpload.previewUrl (App.form a)) as [url |] eqn:Hu;
        [| contradiction Hsome; reflexivity].
      destruct (Hpreview url eq_refl) as [file' [Hfile' Himg]].
      rewrite Hfile in Hfile'. injection Hfile' as <-. exact Himg.
    + intros Himg. exact (Himage file Hfile Himg).
  - intros Hnone. destruct (FileUpload.previewUrl (App.form a)) as [url |]; [| reflexivity].
    destruct (Hpreview url eq_refl) as [file [Hfile _]].
    rewrite Hnone in Hfile. discriminate Hfile.
Qed.

Lemma preview_exactly_for_images_witness :
  exists a,
    run engineText start [SelectFile invoice "blob:1"] = Some a
    /\ FileUpload.previewUrl (App.form a) = None.
Proof.
  eexists. split; [vm_compute; reflexivity |].
  match goal with
  | |- FileUpload.previewUrl (App.form ?a) = None =>
      destruct (preview_exactly_for_images engineText a) as [H _]
  end.
  - eapply run_reachable with (events := [SelectFile invoice "blob:1"]);
      [apply reachable_start | vm_compute; reflexivity].
  - destruct (H invoice eq_refl) as [Hto _].
    match goal with
    | |- ?p = None => destruct p as [url |] eqn:Hp; [| reflexivity]
    end.
    contradiction Hto; [discriminate | reflexivity].
Defined.

(** X8: the form does not survive being hidden: whenever a reachable state
    does not render the form and a step renders it again (a settled call
    that failed, the logo, Back to home), the form is in its initial state:
    no file, no payment method, terms not accepted, Analyze not rendered. *)
Theorem form_returns_empty (inOperatorMessage : json -> string) (a a' : App.t) (e : Event) :
  reachable inOperatorMessage a ->
  Index.showsFileUpload (App.page a) = false ->
  step inOperatorMessage a e = Some a' ->
  App.form a' = FileUpload.initial
  /\ FileUpload.canAnalyze (App.form a') = false
  /\ analyzeDisabled (App.form a') = None.
Proof.
  intros Hr Hhide Hstep.
  destruct (reachable_well_formed inOperatorMessage a Hr) as [_ [_ [_ [_ Hhidden]]]].
  specialize (Hhidden Hhide).
  assert (Hform : App.form a' = FileUpload.initial).
  { assert (Hren : forall page, rendered page (App.form a) = FileUpload.initial)
      by (intros page; rewrite Hhidden; unfold rendered; destruct (Index.showsFileUpload page);
          reflexivity).
    destruct e; simpl in Hstep; rewrite ?Hhide in Hstep; simpl in Hstep;
      try discriminate Hstep.
    - destruct (nth_error (App.pending a) i); [| discriminate Hstep].
      destruct (settled inOperatorMessage net) as [outcome |]; [| discriminate Hstep].
      destruct (Index.handleFileUpload_resume (App.page a) outcome) as [page' shown].
      injection Hstep as <-. apply Hren.
    - injection Hstep as <-. apply Hren.
    - destruct (Index.showsComparisonResults (App.page a)); [| discriminate Hstep].
      injection Hstep as <-. apply Hren. }
  rewrite Hform. repeat split.
Qed.

Lemma form_returns_empty_witness :
  exists a a',
    run engineText start filled = Some a
    /\ step engineText a (Settle 0 unreadableResponse) = Some a'
    /\ Index.showsFileUpload (App.page a') = true
    /\ FileUpload.canAnalyze (App.form a') = false.
Proof.
  eexists. eexists. split; [vm_compute; reflexivity |].
  split; [vm_compute; reflexivity |].
  split; [reflexivity |].
  match goal with
  | |- FileUpload.canAnalyze (App.form ?a') = false =>
      destruct (form_returns_empty engineText
                  {| App.page := {| Index.uploadedFile := Some invoice;
                                    Index.analysisData := None;
                                    Index.isAnalyzing := true |};
                     App.form := FileUpload.initial;
                     App.pending := [(invoice, BANK)];
                     App.toasts := [] |}
                  a' (Settle 0 unreadableResponse)) as [_ [H _]]
  end.
  - eapply run_reachable with (events := filled);
      [apply reachable_start | vm_compute; reflexivity].
  - reflexivity.
  - vm_compute. reflexivity.
  - exact H.
Defined.

(** X9: a reset does not cancel: the logo brings the page back to its
    initial state and leaves the pending calls pending; when one of them
    later resolves with data, its record is stored and the comparison
    results replace the upload form. *)
Theorem reset_does_not_cancel (inOperatorMessage : json -> string) (a : App.t) :
  exists a1,
    step inOperatorMessage a ClickLogo = Some a1
    /\ App.page a1 = Index.initial
    /\ App.pending a1 = App.pending a
    /\ forall i call net typed firaData,
         nth_error (App.pending a) i = Some call ->
         settled inOperatorMessage net = Some (Normal typed) ->
         FiraProcessingResult.success typed = true ->
         FiraProcessingResult.firaData typed = Some firaData ->
         exists a2,
           step inOperatorMessage a1 (Settle i net) = Some a2
           /\ Index.analysisData (App.page a2) = Some (transformedData firaData)
           /\ Index.showsComparisonResults (App.page a2) = true
           /\ Index.showsFileUpload (App.page a2) = false
           /\ App.pending a2 = remove_nth i (App.pending a).
Proof.
  eexists. split; [reflexivity |]. split; [reflexivity |]. split; [reflexivity |].
  intros i call net typed firaData Hnth Hnet Hs Hd.
  cbn [step App.page App.pending App.form App.toasts].
  rewrite Hnth, Hnet.
  unfold Index.handleFileUpload_resume, Index.analyse. cbn [bind].
  rewrite Hs, Hd. cbn [negb].
  eexists. split; [reflexivity |]. repeat split.
Qed.

Lemma reset_does_not_cancel_witness :
  exists a a1 a2,
    run engineText start filled = Some a
    /\ step engineText a ClickLogo = Some a1
    /\ step engineText a1 (Settle 0 zeroInrAmountResponse) = Some a2
    /\ Index.showsComparisonResults (App.page a2) = true.
Proof.
  eexists.
  match goal with
  | |- exists a1 a2, run _ _ _ = Some ?a /\ _ =>
      destruct (reset_does_not_cancel engineText a) as [a1 [Hstep [_ [_ Hlate]]]];
      destruct (Hlate 0%nat (invoice, BANK) zeroInrAmountResponse
                  {| FiraProcessingResult.success := true;
                     FiraProcessingResult.message := Some "FIRA processed"%string;
                     FiraProcessingResult.firaData := Some zeroInrAmount;
                     FiraProcessingResult.processingTimeMs := Some (JS.of_Z 1200);
                     FiraProcessingResult.errors := Some [] |}
                  zeroInrAmount)
        as [a2 [Hsettle [_ [Hshown _]]]]
  end.
  5: { exists a1, a2. split; [vm_compute; reflexivity |].
       split; [exact Hstep | split; [exact Hsettle | exact Hshown]]. }
  all: reflexivity.
Defined.

(** X10: a click on Analyze takes effect exactly when the form is rendered
    and a file, a payment method and the accepted terms are all there; it
    then starts one call, for the selected file and method, keeps that file
    on the page, shows the loading stages and unmounts the form. *)
Theorem analyze_starts_one_call (inOperatorMessage : json -> string) (a : App.t) :
  (isSome (step inOperatorMessage a ClickAnalyze) = true
   <-> Index.showsFileUpload (App.page a) = true /\ FileUpload.canAnalyze (App.form a) = true)
  /\ forall a', step inOperatorMessage a ClickAnalyze = Some a' ->
       exists file method,
         FileUpload.uploadedFile (App.form a) = Some file
         /\ FileUpload.paymentMethod (App.form a) = Some method
         /\ FileUpload.acceptedTerms (App.form a) = true
         /\ App.pending a' = App.pending a ++ [(file, method)]
         /\ Index.uploadedFile (App.page a') = Some file
         /\ Index.showsLoadingStages (App.page a') = true
         /\ Index.showsFileUpload (App.page a') = false
         /\ App.form a' = FileUpload.initial
         /\ App.toasts a' = App.toasts a.
Proof.
  cbn [step]. unfold FileUpload.canAnalyze, FileUpload.handleAnalyze.
  destruct (Index.showsFileUpload (App.page a)) eqn:Hshow; cbn [andb].
  2:{ split; [split; [discriminate | intros [H _]; discriminate H] | discriminate]. }
  destruct (showsFileUpload_true _ Hshow) as [Hnone Hidle].
  destruct (FileUpload.uploadedFile (App.form a)) as [file |];
    destruct (FileUpload.acceptedTerms (App.form a));
    destruct (FileUpload.paymentMethod (App.form a)) as [method |];
    cbn [isSome andb];
    try (split; [split; [discriminate | intros [_ H]; discriminate H] | discriminate]).
  split; [split; [intros _; split; reflexivity | intros _; reflexivity] |].
  intros a' H. injection H as <-. exists file, method.
  cbn [App.pending App.page App.form App.toasts Index.handleFileUpload_start
       Index.uploadedFile Index.showsLoadingStages Index.isAnalyzing].
  repeat split.
  - unfold Index.showsFileUpload. cbn [Index.isAnalyzing negb]. apply andb_false_r.
  - apply rendered_hidden. unfold Index.showsFileUpload. cbn [Index.isAnalyzing negb].
    apply andb_false_r.
Qed.

Lemma analyze_starts_one_call_witness :
  exists a' : App.t,
    run engineText start filled = Some a'
    /\ App.pending a' = [(invoice, BANK)].
Proof.
  destruct (analyze_starts_one_call engineText
              {| App.page := Index.initial;
                 App.form := {| FileUpload.uploadedFile := Some invoice;
                                FileUpload.previewUrl := None;
                                FileUpload.acceptedTerms := true;
                                FileUpload.paymentMethod := Some BANK |};
                 App.pending := []; App.toasts := [] |}) as [_ H].
  destruct (H {| App.page := {| Index.uploadedFile := Some invoice;
                                Index.analysisData := None;
                                Index.isAnalyzing := true |};
                 App.form := FileUpload.initial;
                 App.pending := [(invoice, BANK)];
                 App.toasts := [] |} eq_refl)
    as [file [method [Hf [Hm [_ [Hp _]]]]]].
  eexists. split; [vm_compute; reflexivity |].
  cbn in Hf, Hm, Hp. injection Hf as <-. injection Hm as <-. exact Hp.
Defined.

(** X11: every settled call shows exactly one toast and clears
    [isAnalyzing], other calls pending or not: either "Analysis Complete",
    and then its record is the stored one, or the destructive
    "Processing Failed", and then the stored record is the one before. *)
Theorem settle_shows_one_toast (inOperatorMessage : json -> string) (a a' : App.t)
        (i : nat) (net : FetchOutcome) :
  step inOperatorMessage a (Settle i net) = Some a' ->
  Index.isAnalyzing (App.page a') = false
  /\ App.pending a' = remove_nth i (App.pending a)
  /\ ((exists record,
         App.toasts a' = App.toasts a ++ [Index.analysisComplete]
         /\ Index.analysisData (App.page a') = Some record)
      \/ (exists text,
            App.toasts a' = App.toasts a ++ [Index.processingFailed text]
            /\ Index.analysisData (App.page a') = Index.analysisData (App.page a))).
Proof.
  cbn [step].
  destruct (nth_error (App.pending a) i); [| discriminate].
  destruct (settled inOperatorMessage net) as [outcome |]; [| discriminate].
  unfold Index.handleFileUpload_resume.
  destruct (Index.analyse outcome) as [record | e]; intros H; injection H as <-;
    cbn [App.page App.pending App.toasts Index.isAnalyzing Index.analysisData];
    (split; [reflexivity | split; [reflexivity |]]).
  - left. exists record. split; reflexivity.
  - right. eexists. split; reflexivity.
Qed.

Lemma settle_shows_one_toast_witness :
  exists a a',
    run engineText start filled = Some a
    /\ step engineText a (Settle 0 unreadableResponse) = Some a'
    /\ Index.isAnalyzing (App.page a') = false.
Proof.
  eexists. eexists. split; [vm_compute; reflexivity |].
  split; [vm_compute; reflexivity |].
  match goal with
  | |- Index.isAnalyzing (App.page ?a') = false =>
      refine (proj1 (settle_shows_one_toast engineText
                {| App.page := {| Index.uploadedFile := Some invoice;
                                  Index.analysisData := None;
                                  Index.isAnalyzing := true |};
                   App.form := FileUpload.initial;
                   App.pending := [(invoice, BANK)];
                   App.toasts := [] |}
                a' 0%nat unreadableResponse _))
  end.
  vm_compute. reflexivity.
Defined.

(** ** The Analyze button and its hint *)

(** X12: whenever the Analyze button is rendered, the hint under it is
    rendered exactly when the button is disabled, and its text names what
    is missing: the payment method, the terms, or both; without a selected
    file neither is rendered. *)
Theorem hint_iff_disabled (s : FileUpload.State) :
  match analyzeDisabled s with
  | None => analyzeHint s = None
  | Some disabled => isSome (analyzeHint s) = disabled
  end
  /\ (analyzeHint s
      = Some "Please select a payment method and accept the terms & conditions to continue"%string
      <-> FileUpload.uploadedFile s <> None /\ FileUpload.paymentMethod s = None
          /\ FileUpload.acceptedTerms s = false)
  /\ (analyzeHint s = Some "Please select a payment method to continue"%string
      <-> FileUpload.uploadedFile s <> None /\ FileUpload.paymentMethod s = None
          /\ FileUpload.acceptedTerms s = true)
  /\ (analyzeHint s = Some "Please accept the terms & conditions to continue"%string
      <-> FileUpload.uploadedFile s <> None /\ FileUpload.paymentMethod s <> None
          /\ FileUpload.acceptedTerms s = false).
Proof.
  unfold analyzeDisabled, analyzeHint, FileUpload.canAnalyze.
  destruct s as [[file |] preview [|] [method |]]; simpl;
    repeat split; try reflexivity; try discriminate; try congruence;
    intros; repeat match goal with H : _ /\ _ |- _ => destruct H end;
    try discriminate; try congruence.
Qed.

(** ** The request URL *)




(** ** Signs and zero divisors in the comparison record *)

Section MoreNumbers.

Import JS.

Lemma SFdiv_core_binary_nonneg (m1 m2 : positive) (e1 e2 : Z) :
  0 <= fst (fst (SFdiv_core_binary prec emax (Zpos m1) e1 (Zpos m2) e2)).
Proof.
  unfold SFdiv_core_binary.
  set (e' := Z.min _ _).
  set (m' := match e1 - e2 - e' with 0 => _ | Zpos _ => _ | Zneg _ => _ end).
  assert (Hm : 0 <= m').
  { unfold m'. destruct (e1 - e2 - e'); try lia. apply Z.shiftl_nonneg. lia. }
  destruct (Z.div_eucl m' (Zpos m2)) as [n r] eqn:En. cbn [fst].
  replace n with (m' / Zpos m2) by (unfold Z.div; rewrite En; reflexivity).
  apply Z.div_pos; lia.
Qed.

Lemma binary_round_aux_weakly_signed (s : bool) (m e : Z) (l : location) :
  0 <= m -> weakly_signed s (binary_round_aux prec emax s m e l).
Proof.
  intros Hm. destruct (binary_round_aux_sign s m e l Hm) as [H | H].
  - left. exists s. exact H.
  - right. exact H.
Qed.

(** A quotient by a positive finite number keeps the sign class of the
    dividend. *)
Lemma div_weakly_signed (s : bool) (x y : number) :
  weakly_signed s x -> signed false y -> is_finite y = true ->
  weakly_signed s (div x y).
Proof.
  intros Hx [-> | [my [ey ->]]] Hy; [discriminate Hy |].
  unfold div.
  destruct Hx as [[z ->] | [-> | [mx [ex ->]]]]; cbn [SFdiv].
  - left. eexists. reflexivity.
  - right. left. rewrite xorb_false_r. reflexivity.
  - rewrite xorb_false_r.
    pose proof (SFdiv_core_binary_nonneg mx my ex ey) as Hq.
    destruct (SFdiv_core_binary prec emax (Zpos mx) ex (Zpos my) ey) as [[q e] l].
    cbn [fst] in Hq. apply binary_round_aux_weakly_signed. exact Hq.
Qed.

Lemma mul_hundred_weakly_signed (s : bool) (x : number) :
  weakly_signed s x -> weakly_signed s (mul x hundred).
Proof.
  change hundred with (S754_finite false 7036874417766400 (-46)).
  unfold mul.
  intros [[z ->] | [-> | [mx [ex ->]]]]; cbn [SFmul].
  - left. eexists. reflexivity.
  - right. left. rewrite xorb_false_r. reflexivity.
  - rewrite xorb_false_r. apply binary_round_aux_weakly_signed. lia.
Qed.

Lemma fixed_weakly_signed (s : bool) (x : number) :
  weakly_signed s x -> weakly_signed s (fixed x 2).
Proof.
  unfold fixed. intros [[z ->] | Hx].
  - left. exists false. reflexivity.
  - destruct (fixed_signed s x Hx) as [[_ ->] | [_ Hr]].
    + left. exists s. reflexivity.
    + right. exact Hr.
Qed.

Lemma weakly_signed_ge (x : number) :
  weakly_signed false x -> ge x (of_Z 0) = true.
Proof. intros [[z ->] | [-> | [m [e ->]]]]; reflexivity. Qed.

Lemma weakly_signed_le (x : number) :
  weakly_signed true x -> le x (of_Z 0) = true.
Proof. intros [[z ->] | [-> | [m [e ->]]]]; reflexivity. Qed.

Lemma positive_finite (x : number) :
  gt x (of_Z 0) = true -> is_finite x = true -> signed false x.
Proof.
  destruct x as [s | s | | s m e]; try discriminate; destruct s; try discriminate.
  intros _ _. right. eauto.
Qed.

(** The sign class of a difference, by the way the two doubles compare. *)
Lemma sub_weakly_signed (x y : number) :
  is_double x -> is_double y -> is_finite x = true \/ is_finite y = true ->
  (le y x = true -> weakly_signed false (sub x y))
  /\ (ge y x = true -> weakly_signed true (sub x y)).
Proof.
  intros Hx Hy Hfin.
  pose proof (sub_sign x y Hx Hy) as Hs.
  unfold le, ge, SFleb. rewrite (SFcompare_swap x y).
  assert (Hf : SFcompare x y = Some Eq -> is_finite x = true).
  { destruct Hfin as [H | H]; [intros _; exact H |].
    destruct x as [sx | sx | | sx mx ex]; try (intros _; reflexivity).
    - destruct y as [sy | sy | | sy my ey]; try discriminate H; simpl;
        destruct sx; discriminate.
    - discriminate. }
  destruct (SFcompare x y) as [[| |] |]; cbn [option_map CompOpp]; split;
    try discriminate; intros _.
  - left. apply Hs. apply Hf. reflexivity.
  - left. apply Hs. apply Hf. reflexivity.
  - right. exact Hs.
  - right. exact Hs.
Qed.

(** The rounded percentage [((x - y) / z) * 100] for a positive finite
    [z]. *)
Lemma percentage_weakly_signed (s : bool) (x y z : number) :
  weakly_signed s (sub x y) -> gt z (of_Z 0) = true -> is_finite z = true ->
  weakly_signed s (fixed (mul (div (sub x y) z) hundred) 2).
Proof.
  intros Hd Hz Hf.
  apply fixed_weakly_signed, mul_hundred_weakly_signed, div_weakly_signed;
    [exact Hd | apply positive_finite; assumption | exact Hf].
Qed.

End MoreNumbers.

(** X14: for a positive finite [inrAmount], the current provider's
    effective cost is never of the wrong sign: it is [>= 0] when
    [finalInrAmount <= inrAmount] and [<= 0] when
    [finalInrAmount >= inrAmount]; in particular it is not NaN. *)
Theorem currentProvider_effectiveCost_sign (d : FiraDataDto.t) :
  let converted := FiraDataDto.inrAmount d in
  let final := FiraDataDto.finalInrAmount d in
  let cost := Provider.effectiveCost (Comparison.currentProvider (transformedData d)) in
  JS.is_double converted -> JS.is_double final ->
  JS.gt converted (JS.of_Z 0) = true -> JS.is_finite converted = true ->
  (JS.le final converted = true -> JS.ge cost (JS.of_Z 0) = true)
  /\ (JS.ge final converted = true -> JS.le cost (JS.of_Z 0) = true).
Proof.
  intros converted final cost Hc Hf Hpos Hfin.
  destruct (sub_weakly_signed converted final Hc Hf (or_introl Hfin)) as [Hle Hge].
  split; intros H.
  - apply weakly_signed_ge.
    exact (percentage_weakly_signed false converted final converted (Hle H) Hpos Hfin).
  - apply weakly_signed_le.
    exact (percentage_weakly_signed true converted final converted (Hge H) Hpos Hfin).
Qed.

Lemma currentProvider_effectiveCost_sign_witness :
  JS.ge (Provider.effectiveCost
           (Comparison.currentProvider
              (transformedData (scenario (JS.of_Z 500) (JS.of_Z 200) (JS.of_Z 100)))))
        (JS.of_Z 0) = true.
Proof.
  refine (proj1 (currentProvider_effectiveCost_sign
                   (scenario (JS.of_Z 500) (JS.of_Z 200) (JS.of_Z 100)) _ _ _ _) _);
    reflexivity.
Defined.

(** X15: for a positive finite [finalInrAmount], [Savings.percentage] and
    [Savings.amount] never have opposite signs: both are [>= 0] when
    [finalInrAmountSkydo >= finalInrAmount] and both are [<= 0] when it is
    [<=]. *)
Theorem savings_percentage_sign (d : FiraDataDto.t) :
  let current := FiraDataDto.finalInrAmount d in
  let skydo := FiraDataDto.finalInrAmountSkydo d in
  let savings := Comparison.savings (transformedData d) in
  JS.is_double current -> JS.is_double skydo ->
  JS.gt current (JS.of_Z 0) = true -> JS.is_finite current = true ->
  (JS.ge skydo current = true ->
     JS.ge (Savings.percentage savings) (JS.of_Z 0) = true
     /\ JS.ge (Savings.amount savings) (JS.of_Z 0) = true)
  /\ (JS.le skydo current = true ->
        JS.le (Savings.percentage savings) (JS.of_Z 0) = true
        /\ JS.le (Savings.amount savings) (JS.of_Z 0) = true).
Proof.
  intros current skydo savings Hc Hs Hpos Hfin.
  destruct (sub_weakly_signed skydo current Hs Hc (or_intror Hfin)) as [Hle Hge].
  split; intros H.
  - split; apply weakly_signed_ge.
    + exact (percentage_weakly_signed false skydo current current (Hle H) Hpos Hfin).
    + exact (fixed_weakly_signed false _ (Hle H)).
  - split; apply weakly_signed_le.
    + exact (percentage_weakly_signed true skydo current current (Hge H) Hpos Hfin).
    + exact (fixed_weakly_signed true _ (Hge H)).
Qed.

Lemma savings_percentage_sign_witness :
  JS.ge (Savings.percentage (Comparison.savings (transformedData oneCentSavings)))
        (JS.of_Z 0) = true.
Proof.
  refine (proj1 (proj1 (savings_percentage_sign oneCentSavings _ _ _ _) _));
    reflexivity.
Defined.

(** X16: a zero divisor always shows: when [inrAmount] is zero the current
    provider's effective cost is not a finite number, when [finalInrAmount]
    is zero neither is [Savings.percentage], and when [amount] or
    [fxRateSkydo] is zero neither is the Skydo effective cost: each is
    NaN or an infinity. *)
Theorem zero_divisor_is_not_finite (d : FiraDataDto.t) :
  (is_zero (FiraDataDto.inrAmount d) = true ->
     JS.is_finite (Provider.effectiveCost (Comparison.currentProvider (transformedData d)))
     = false)
  /\ (is_zero (FiraDataDto.finalInrAmount d) = true ->
        JS.is_finite (Savings.percentage (Comparison.savings (transformedData d))) = false)
  /\ (is_zero (FiraDataDto.amount d) = true \/ is_zero (FiraDataDto.fxRateSkydo d) = true ->
        JS.is_finite (Provider.effectiveCost (Comparison.skydo (transformedData d))) = false).
Proof.
  destruct d as [id amount currency inr fx rate tFee fFee wFee pf pw pt final finalS date].
  cbn [transformedData Comparison.currentProvider Comparison.skydo Comparison.savings
       Provider.effectiveCost Savings.percentage FiraDataDto.inrAmount
       FiraDataDto.finalInrAmount FiraDataDto.amount FiraDataDto.fxRateSkydo].
  unfold currentProviderEffectiveCost, skydoEffectiveCost, skydoOriginalInrAmount.
  cbn [FiraDataDto.inrAmount FiraDataDto.finalInrAmount FiraDataDto.amount
       FiraDataDto.fxRateSkydo FiraDataDto.finalInrAmountSkydo].
  change hundred with (S754_finite false 7036874417766400 (-46)).
  split; [| split].
  - destruct inr as [s | s | | s m e]; try discriminate. intros _.
    destruct final as [sf | sf | | sf mf ef]; destruct s; try destruct sf; reflexivity.
  - destruct final as [s | s | | s m e]; try discriminate. intros _.
    destruct finalS as [sf | sf | | sf mf ef]; destruct s; try destruct sf; reflexivity.
  - intros Hz.
    assert (Ho : is_zero (JS.mul amount fx) = true \/ JS.mul amount fx = S754_nan).
    { destruct Hz as [Hz | Hz].
      - destruct amount as [s | s | | s m e]; try discriminate Hz.
        destruct fx as [sf | sf | | sf mf ef]; [left | right | right | left]; reflexivity.
      - destruct fx as [s | s | | s m e]; try discriminate Hz.
        destruct amount as [sa | sa | | sa ma ea]; [left | right | right | left]; reflexivity. }
    destruct Ho as [Ho | ->]; [| reflexivity].
    destruct (JS.mul amount fx) as [s | s | | s m e]; try discriminate Ho.
    destruct finalS as [sf | sf | | sf mf ef]; destruct s; try destruct sf; reflexivity.
Qed.

Lemma zero_divisor_is_not_finite_witness :
  JS.is_finite
    (Provider.effectiveCost (Comparison.currentProvider (transformedData zeroInrAmount)))
  = false.
Proof.
  destruct (zero_divisor_is_not_finite zeroInrAmount) as [H _]. apply H. reflexivity.
Defined.

(** X17: rounding for display never makes a NaN: the payment amount of the
    current provider, the original and the transaction amount and each of
    the eight charges is NaN exactly when the field it is rounded from
    is. *)
Theorem displayed_nan_only_from_nan (d : FiraDataDto.t) :
  (Provider.paymentAmount (Comparison.currentProvider (transformedData d)) = S754_nan
   <-> FiraDataDto.inrAmount d = S754_nan)
  /\ (Comparison.transactionAmount (transformedData d) = S754_nan
      <-> FiraDataDto.inrAmount d = S754_nan)
  /\ (Comparison.originalAmount (transformedData d) = S754_nan
      <-> FiraDataDto.amount d = S754_nan)
  /\ Forall2 (fun charge field => Charge.amount charge = S754_nan <-> field = S754_nan)
       (Provider.charges (Comparison.currentProvider (transformedData d)))
       [ FiraDataDto.calculatedExchangeRate d; FiraDataDto.platformWireFee d;
         FiraDataDto.platformFiraFee d; FiraDataDto.platformTransactionFee d ]
  /\ Forall2 (fun charge field => Charge.amount charge = S754_nan <-> field = S754_nan)
       (Provider.charges (Comparison.skydo (transformedData d)))
       [ FiraDataDto.fxRateSkydo d; FiraDataDto.skydoWireFee d;
         FiraDataDto.skydoFiraFee d; FiraDataDto.transactionSkydoFee d ].
Proof.
  assert (Hn : forall x f, fixed x f = S754_nan <-> x = S754_nan).
  { intros x f. split; [apply fixed_nan | intros ->; reflexivity]. }
  cbn [transformedData Comparison.currentProvider Comparison.skydo Provider.paymentAmount
       Provider.charges Comparison.transactionAmount Comparison.originalAmount].
  repeat split; try apply Hn;
    repeat (constructor; [cbn [Charge.amount]; apply Hn |]); constructor.
Qed.


(** ** The numbers of the record are doubles *)

Section Doubles.

Import JS.

Lemma Zdigits2_log2 (m : Z) : 0 < m -> Zdigits2 m = Z.log2 m + 1.
Proof. destruct m as [| p | p]; try lia. intros _. apply digits2_log2. Qed.

Lemma Zdigits2_mono (a b : Z) : 0 < a -> a <= b -> Zdigits2 a <= Zdigits2 b.
Proof.
  intros Ha Hab. rewrite !Zdigits2_log2 by lia.
  pose proof (Z.log2_le_mono a b Hab). lia.
Qed.

Lemma Zdigits2_shift (m n : Z) :
  0 < m -> 0 <= n -> n < Zdigits2 m ->
  0 < m / 2 ^ n /\ Zdigits2 (m / 2 ^ n) = Zdigits2 m - n.
Proof.
  intros Hm Hn Hlt. rewrite Zdigits2_log2 in Hlt by assumption.
  assert (Hpos : 0 < m / 2 ^ n).
  { apply Z.div_str_pos. split; [apply Z.pow_pos_nonneg; lia |].
    apply Z.le_trans with (2 ^ Z.log2 m); [apply Z.pow_le_mono_r; lia |].
    apply Z.log2_spec. exact Hm. }
  split; [exact Hpos |].
  rewrite !Zdigits2_log2 by assumption.
  rewrite <- Z.shiftr_div_pow2 by assumption.
  rewrite Z.log2_shiftr by assumption. lia.
Qed.

Lemma Zdigits2_small (m n : Z) :
  0 <= m -> Zdigits2 m <= n -> m / 2 ^ n = 0.
Proof.
  intros Hm Hn. destruct (Z.eq_dec m 0) as [-> | Hne]; [apply Z.div_0_l; 
    apply Z.pow_nonzero; [lia | destruct n; simpl in Hn; lia] |].
  assert (Hpos : 0 < m) by lia.
  rewrite Zdigits2_log2 in Hn by assumption.
  apply Z.div_small. split; [lia |].
  apply Z.lt_le_trans with (2 ^ Z.succ (Z.log2 m)); [apply Z.log2_spec; exact Hpos |].
  apply Z.pow_le_mono_r; lia.
Qed.

(** The shift to the canonical exponent, for a mantissa whose exponent is
    not above it. *)
Lemma shr_fexp_canonical (m e : Z) (l : location) :
  0 <= m -> e <= fexp prec emax (Zdigits2 m + e) ->
  (shr_m (fst (shr_fexp prec emax m e l)) = 0
   /\ snd (shr_fexp prec emax m e l) = emin prec emax)
  \/ (0 < shr_m (fst (shr_fexp prec emax m e l))
      /\ fexp prec emax (Zdigits2 (shr_m (fst (shr_fexp prec emax m e l)))
                         + snd (shr_fexp prec emax m e l))
         = snd (shr_fexp prec emax m e l)).
Proof.
  intros Hm He. unfold shr_fexp, shr.
  destruct (fexp prec emax (Zdigits2 m + e) - e) as [| n | n] eqn:En; cbn [fst snd].
  - rewrite shr_m_record_of_loc.
    destruct (Z.eq_dec m 0) as [-> | Hne].
    + left. split; [reflexivity |]. simpl in En. unfold fexp, emin, prec, emax in *. lia.
    + right. split; lia.
  - rewrite iter_pos_shr_1 by (rewrite shr_m_record_of_loc; exact Hm).
    rewrite shr_m_record_of_loc.
    destruct (Z_lt_le_dec (Zpos n) (Zdigits2 m)) as [Hlt | Hge].
    + right. assert (Hpos : 0 < m) by (destruct m; simpl in Hlt; lia).
      destruct (Zdigits2_shift m (Zpos n) Hpos ltac:(lia) Hlt) as [Hq Hd].
      split; [exact Hq |]. rewrite Hd.
      replace (Zdigits2 m - Zpos n + (e + Zpos n)) with (Zdigits2 m + e) by lia. lia.
    + left. split; [apply Zdigits2_small; assumption |].
      unfold fexp, emin, prec, emax in *. lia.
  - lia.
Qed.

Lemma round_nearest_even_cases (m : Z) (l : location) :
  round_nearest_even m l = m \/ round_nearest_even m l = m + 1.
Proof. destruct l as [| []]; simpl; try destruct (Z.even m); auto. Qed.

(** Rounding gives a double whenever the exponent it starts from is not
    above the canonical one. *)
Lemma binary_round_aux_valid (s : bool) (m e : Z) (l : location) :
  0 <= m -> e <= fexp prec emax (Zdigits2 m + e) ->
  valid_binary prec emax (binary_round_aux prec emax s m e l) = true.
Proof.
  intros Hm He. unfold binary_round_aux.
  pose proof (shr_fexp_canonical m e l Hm He) as H1.
  destruct (shr_fexp prec emax m e l) as [mrs1 e1]. cbn [fst snd] in H1.
  set (m1 := round_nearest_even (shr_m mrs1) (loc_of_shr_record mrs1)).
  assert (Hm1 : 0 <= m1 /\ e1 <= fexp prec emax (Zdigits2 m1 + e1)).
  { destruct (round_nearest_even_cases (shr_m mrs1) (loc_of_shr_record mrs1)) as [Hr | Hr];
      fold m1 in Hr; destruct H1 as [[H0 Hmin] | [Hpos Hcan]].
    - rewrite Hr, H0. split; [lia |]. simpl. unfold fexp, emin, prec, emax in *. lia.
    - rewrite Hr. split; lia.
    - rewrite Hr, H0. split; [lia |]. simpl. unfold fexp, emin, prec, emax in *. lia.
    - split; [lia |].
      pose proof (Zdigits2_mono (shr_m mrs1) m1 Hpos ltac:(lia)) as Hd.
      unfold fexp in *. lia. }
  destruct Hm1 as [Hm1 He1].
  pose proof (shr_fexp_canonical m1 e1 loc_Exact Hm1 He1) as H2.
  destruct (shr_fexp prec emax m1 e1 loc_Exact) as [mrs2 e2]. cbn [fst snd] in H2.
  destruct (shr_m mrs2) as [| p | p].
  - reflexivity.
  - destruct (Z.leb_spec e2 (emax - prec)) as [Hle | Hgt]; [| reflexivity].
    cbn [valid_binary]. unfold bounded, canonical_mantissa.
    destruct H2 as [[H0 _] | [_ Hcan]]; [discriminate H0 |].
    cbn [Zdigits2] in Hcan. rewrite Hcan, Z.eqb_refl. apply Z.leb_le. exact Hle.
  - destruct H2 as [[H0 _] | [Hpos _]]; [discriminate H0 | lia].
Qed.

Lemma Zdigits2_mul_pow2 (m : positive) (k : Z) :
  0 <= k -> Zdigits2 (Zpos m * 2 ^ k) = Zpos (digits2_pos m) + k.
Proof.
  intros Hk.
  assert (Hpos : 0 < Zpos m * 2 ^ k)
    by (apply Z.mul_pos_pos; [lia | apply Z.pow_pos_nonneg; lia]).
  rewrite Zdigits2_log2 by assumption.
  rewrite Z.log2_mul_pow2 by lia. rewrite digits2_log2. lia.
Qed.

Lemma binary_round_valid (s : bool) (m : positive) (e : Z) :
  valid_binary prec emax (binary_round prec emax s m e) = true.
Proof.
  unfold binary_round.
  set (e' := fexp prec emax (Zpos (digits2_pos m) + e)).
  pose proof (shl_align_snd m e e') as Hs.
  destruct (Z_le_gt_dec e' e) as [Hle | Hgt].
  - pose proof (shl_align_fst m e e' Hle) as Hf.
    destruct (shl_align m e e') as [mz ez]. cbn [fst snd] in Hf, Hs.
    apply binary_round_aux_valid; [lia |].
    rewrite Hf, Zdigits2_mul_pow2 by lia.
    replace (Zpos (digits2_pos m) + (e - e') + ez) with (Zpos (digits2_pos m) + e) by lia.
    fold e'. lia.
  - assert (Hsame : shl_align m e e' = (m, e)).
    { unfold shl_align. destruct (e' - e) eqn:Ed; try reflexivity. lia. }
    rewrite Hsame. apply binary_round_aux_valid; [lia |].
    cbn [Zdigits2]. fold e'. lia.
Qed.

Lemma binary_normalize_valid (m e : Z) (szero : bool) :
  valid_binary prec emax (binary_normalize prec emax m e szero) = true.
Proof. destruct m; simpl; [reflexivity | apply binary_round_valid ..]. Qed.

(** Sums and differences of doubles are doubles. *)
Lemma sub_double (x y : number) : is_double x -> is_double y -> is_double (sub x y).
Proof.
  unfold is_double, sub.
  destruct x as [sx | sx | | sx mx ex], y as [sy | sy | | sy my ey]; intros Hx Hy;
    cbn [SFsub]; try reflexivity; try assumption;
    try (destruct sx, sy; reflexivity).
  apply binary_normalize_valid.
Qed.

Lemma add_double (x y : number) : is_double x -> is_double y -> is_double (add x y).
Proof.
  unfold is_double, add.
  destruct x as [sx | sx | | sx mx ex], y as [sy | sy | | sy my ey]; intros Hx Hy;
    cbn [SFadd]; try reflexivity; try assumption;
    try (destruct sx, sy; reflexivity).
  apply binary_normalize_valid.
Qed.

(** Products of doubles are doubles. *)
Lemma mul_double (x y : number) : is_double x -> is_double y -> is_double (mul x y).
Proof.
  unfold is_double, mul.
  destruct x as [sx | sx | | sx mx ex], y as [sy | sy | | sy my ey]; intros Hx Hy;
    cbn [SFmul]; try reflexivity.
  cbn [valid_binary] in Hx, Hy. apply bounded_canonical in Hx, Hy.
  destruct (canonical_bounds mx ex Hx) as [Hex [Hux Hlx]].
  destruct (canonical_bounds my ey Hy) as [Hey [Huy Hly]].
  apply binary_round_aux_valid; [lia |].
  cbn [Zdigits2]. rewrite digits2_log2, Pos2Z.inj_mul.
  pose proof (Z.log2_mul_below (Zpos mx) (Zpos my) ltac:(lia) ltac:(lia)) as Hlog.
  pose proof (Z.log2_nonneg (Zpos mx)) as Hnx. pose proof (Z.log2_nonneg (Zpos my)) as Hny.
  assert (Hbx : emin prec emax < ex -> 52 <= Z.log2 (Zpos mx)).
  { intros H. apply Z.log2_le_pow2; [lia |]. apply Hlx. exact H. }
  assert (Hby : emin prec emax < ey -> 52 <= Z.log2 (Zpos my)).
  { intros H. apply Z.log2_le_pow2; [lia |]. apply Hly. exact H. }
  unfold fexp, emin, prec, emax in *.
  destruct (Z_le_gt_dec ex (-1074)), (Z_le_gt_dec ey (-1074));
    try specialize (Hbx ltac:(lia)); try specialize (Hby ltac:(lia)); lia.
Qed.

Lemma Zdigits2_nonneg (q : Z) : 0 <= q -> 0 <= Zdigits2 q.
Proof. destruct q; simpl; lia. Qed.

(** The quotient the division core returns has enough digits for its
    exponent. *)
Lemma SFdiv_core_binary_fexp (m1 m2 : positive) (e1 e2 : Z) :
  let r := SFdiv_core_binary prec emax (Zpos m1) e1 (Zpos m2) e2 in
  0 <= fst (fst r)
  /\ snd (fst r) <= fexp prec emax (Zdigits2 (fst (fst r)) + snd (fst r)).
Proof.
  unfold SFdiv_core_binary. cbn [Zdigits2].
  set (d1 := Zpos (digits2_pos m1)). set (d2 := Zpos (digits2_pos m2)).
  set (e' := Z.min _ _).
  assert (He' : e' <= fexp prec emax (d1 + e1 - (d2 + e2)) /\ e' <= e1 - e2)
    by (unfold e'; lia).
  destruct He' as [He1 He2].
  set (s := e1 - e2 - e') in *.
  set (m' := match s with 0 => _ | Zpos _ => _ | Zneg _ => _ end).
  assert (Hm : m' = Zpos m1 * 2 ^ s).
  { unfold m'. destruct s eqn:Es; try lia.
    rewrite Z.shiftl_mul_pow2 by lia. reflexivity. }
  assert (Hs : 0 <= s) by (unfold s; lia).
  destruct (Z.div_eucl m' (Zpos m2)) as [q r] eqn:Eq. cbn [fst snd].
  assert (Hq : q = m' / Zpos m2) by (unfold Z.div; rewrite Eq; reflexivity).
  assert (Hpow : 0 < 2 ^ s) by (apply Z.pow_pos_nonneg; lia).
  assert (Hm0 : 0 <= m') by (rewrite Hm; lia).
  assert (Hq0 : 0 <= q) by (rewrite Hq; apply Z.div_pos; lia).
  split; [exact Hq0 |].
  assert (Hk : d1 + s - d2 <= Zdigits2 q).
  { destruct (Z_le_gt_dec (d1 + s - d2) 0) as [Hle | Hgt].
    - pose proof (Zdigits2_nonneg q Hq0). lia.
    - assert (Hlow : 2 ^ (d1 + s - d2 - 1) <= q).
      { rewrite Hq. apply Z.div_le_lower_bound; [lia |].
        assert (H2 : Zpos m2 < 2 ^ d2).
        { unfold d2. rewrite digits2_log2.
          replace (Z.log2 (Zpos m2) + 1) with (Z.succ (Z.log2 (Zpos m2))) by lia.
          apply Z.log2_spec. lia. }
        assert (H1 : 2 ^ (d1 - 1) <= Zpos m1).
        { unfold d1. rewrite digits2_log2.
          replace (Z.log2 (Zpos m1) + 1 - 1) with (Z.log2 (Zpos m1)) by lia.
          apply Z.log2_spec. lia. }
        assert (Hd1 : 1 <= d1) by (unfold d1; lia).
        assert (Hd2 : 1 <= d2) by (unfold d2; lia).
        apply Z.le_trans with (2 ^ d2 * 2 ^ (d1 + s - d2 - 1)).
        - apply Z.mul_le_mono_nonneg_r; [apply Z.pow_nonneg; lia | lia].
        - rewrite <- Z.pow_add_r by lia.
          replace (d2 + (d1 + s - d2 - 1)) with ((d1 - 1) + s) by lia.
          rewrite Z.pow_add_r by lia. rewrite Hm.
          apply Z.mul_le_mono_nonneg_r; lia. }
      assert (Hqpos : 0 < q).
      { apply Z.lt_le_trans with (2 ^ (d1 + s - d2 - 1)); [| exact Hlow].
        apply Z.pow_pos_nonneg; lia. }
      rewrite Zdigits2_log2 by exact Hqpos.
      apply Z.log2_le_pow2 in Hlow; [lia | exact Hqpos]. }
  unfold fexp in *. unfold s in Hk. lia.
Qed.

(** Quotients of doubles are doubles. *)
Lemma div_double (x y : number) : is_double x -> is_double y -> is_double (div x y).
Proof.
  unfold is_double, div.
  destruct x as [sx | sx | | sx mx ex], y as [sy | sy | | sy my ey]; intros Hx Hy;
    cbn [SFdiv]; try reflexivity.
  pose proof (SFdiv_core_binary_fexp mx my ex ey) as H. cbv zeta in H.
  destruct (SFdiv_core_binary prec emax (Zpos mx) ex (Zpos my) ey) as [[q e] l].
  cbn [fst snd] in H. apply binary_round_aux_valid; apply H.
Qed.

Lemma round_ratio_double (s : bool) (p q : positive) : is_double (round_ratio s p q).
Proof.
  unfold is_double, round_ratio.
  pose proof (SFdiv_core_binary_fexp p q 0 0) as H. cbv zeta in H.
  destruct (SFdiv_core_binary prec emax (Zpos p) 0 (Zpos q) 0) as [[m e] l].
  cbn [fst snd] in H. apply binary_round_aux_valid; apply H.
Qed.

(** [Number(x.toFixed(f))] is a double whenever [x] is. *)
Lemma fixed_double (x : number) (f : nat) : is_double x -> is_double (fixed x f).
Proof.
  unfold fixed. destruct x as [sx | sx | | sx mx ex]; intros Hx; cbn [toFixed Number];
    try reflexivity.
  destruct (_ <=? _); cbn [Number]; [exact Hx |].
  destruct (_ / _); try reflexivity. apply round_ratio_double.
Qed.

Lemma of_Z_double (z : Z) : is_double (of_Z z).
Proof. apply binary_normalize_valid. Qed.

End Doubles.

(** X18: the arithmetic of the comparison stays within the doubles: when
    every number [transformedData] reads from the payload is a double, so
    is every number of the record it builds. *)
Theorem transformedData_doubles (d : FiraDataDto.t) :
  Forall JS.is_double (transformedFields d) ->
  Forall JS.is_double (comparisonNumbers (transformedData d)).
Proof.
  unfold transformedFields. intros H.
  repeat match goal with
         | H : Forall _ (_ :: _) |- _ => apply Forall_cons_iff in H; destruct H as [? H]
         end.
  clear H.
  assert (Hh : JS.is_double hundred) by apply of_Z_double.
  unfold comparisonNumbers, providerNumbers, transformedData,
    currentProviderEffectiveCost, skydoEffectiveCost, skydoOriginalInrAmount.
  cbn [Comparison.currentProvider Comparison.skydo Comparison.savings
       Comparison.transactionAmount Comparison.originalAmount
       Provider.paymentAmount Provider.totalOnTransaction Provider.effectiveCost
       Provider.charges Savings.amount Savings.percentage map app Charge.amount].
  repeat (apply Forall_cons || apply Forall_nil);
    repeat first [ assumption
                 | apply fixed_double | apply mul_double | apply div_double
                 | apply sub_double | apply add_double ].
Qed.

Lemma transformedData_doubles_witness :
  Forall JS.is_double
    (comparisonNumbers
       (transformedData (scenario (JS.of_Z 500) (JS.of_Z 200) (JS.of_Z 100)))).
Proof.
  apply transformedData_doubles.
  repeat (apply Forall_cons || apply Forall_nil); reflexivity.
Defined.

(** X19: for a positive finite product [amount * fxRateSkydo], the Skydo
    effective cost is never of the wrong sign: it is [>= 0] when
    [finalInrAmountSkydo] is at most that product and [<= 0] when it is at
    least that product. *)
Theorem skydo_effectiveCost_sign (d : FiraDataDto.t) :
  let original := skydoOriginalInrAmount d in
  let final := FiraDataDto.finalInrAmountSkydo d in
  let cost := Provider.effectiveCost (Comparison.skydo (transformedData d)) in
  JS.is_double (FiraDataDto.amount d) -> JS.is_double (FiraDataDto.fxRateSkydo d) ->
  JS.is_double final ->
  JS.gt original (JS.of_Z 0) = true -> JS.is_finite original = true ->
  (JS.le final original = true -> JS.ge cost (JS.of_Z 0) = true)
  /\ (JS.ge final original = true -> JS.le cost (JS.of_Z 0) = true).
Proof.
  intros original final cost Ha Hx Hf Hpos Hfin.
  assert (Ho : JS.is_double original) by (apply mul_double; assumption).
  destruct (sub_weakly_signed original final Ho Hf (or_introl Hfin)) as [Hle Hge].
  split; intros H.
  - apply weakly_signed_ge.
    exact (percentage_weakly_signed false original final original (Hle H) Hpos Hfin).
  - apply weakly_signed_le.
    exact (percentage_weakly_signed true original final original (Hge H) Hpos Hfin).
Qed.

Lemma skydo_effectiveCost_sign_witness :
  JS.ge (Provider.effectiveCost
           (Comparison.skydo
              (transformedData (scenario (JS.of_Z 500) (JS.of_Z 200) (JS.of_Z 100)))))
        (JS.of_Z 0) = true.
Proof.
  refine (proj1 (skydo_effectiveCost_sign
                   (scenario (JS.of_Z 500) (JS.of_Z 200) (JS.of_Z 100)) _ _ _ _ _) _);
    reflexivity.
Defined.
